(** * Supply-chain analytics pipeline: transformation, risk scoring,
      forecasting and inventory optimisation

    The pipeline is a sequence of pandas scripts.  Tables are lists of
    records, one record per row, in row order.  A [float64] column holds
    either a finite number or one of the IEEE special values that pandas
    produces on a division by zero ([inf], [-inf], [NaN]); a missing cell
    is [NaN].  Finite arithmetic is carried out exactly, on rationals:
    binary rounding error of the hardware is not part of the model.
    [np.sqrt] is followed by [.round(0)] wherever the scripts use it, and
    that pair is modelled by an exact nearest-integer square root, related
    to the real square root further down. *)

From Stdlib Require Import ZArith QArith Qround List Bool Lia Psatz.
From Stdlib Require Import Reals Qreals Permutation Sorted String.
Import ListNotations.

Open Scope Q_scope.

(* ================================================================== *)
(** * Part I: the embedding                                            *)
(* ================================================================== *)

(** ** float64 cells *)

Inductive float64 : Type :=
| Fin (q : Q)
| PInf
| NInf
| NaN.

Definition of_int (z : Z) : float64 := Fin (inject_Z z).

Definition is_finite (x : float64) : bool :=
  match x with Fin _ => true | _ => false end.

(** [a / b] on float columns: a zero divisor gives a signed infinity,
    or NaN when the dividend is zero too. *)
Definition fdiv (a b : float64) : float64 :=
  match a, b with
  | NaN, _ | _, NaN => NaN
  | Fin x, Fin y =>
      match Qcompare y 0 with
      | Eq => match Qcompare x 0 with Eq => NaN | Gt => PInf | Lt => NInf end
      | _ => Fin (x / y)
      end
  | Fin _, (PInf | NInf) => Fin 0
  | PInf, Fin y => match Qcompare y 0 with Lt => NInf | _ => PInf end
  | NInf, Fin y => match Qcompare y 0 with Lt => PInf | _ => NInf end
  | (PInf | NInf), (PInf | NInf) => NaN
  end.

Definition fmul (a b : float64) : float64 :=
  match a, b with
  | NaN, _ | _, NaN => NaN
  | Fin x, Fin y => Fin (x * y)
  | Fin x, PInf | PInf, Fin x =>
      match Qcompare x 0 with Eq => NaN | Gt => PInf | Lt => NInf end
  | Fin x, NInf | NInf, Fin x =>
      match Qcompare x 0 with Eq => NaN | Gt => NInf | Lt => PInf end
  | PInf, PInf | NInf, NInf => PInf
  | PInf, NInf | NInf, PInf => NInf
  end.

Definition fadd (a b : float64) : float64 :=
  match a, b with
  | NaN, _ | _, NaN => NaN
  | Fin x, Fin y => Fin (x + y)
  | PInf, NInf | NInf, PInf => NaN
  | PInf, _ | _, PInf => PInf
  | NInf, _ | _, NInf => NInf
  end.

Definition fneg (a : float64) : float64 :=
  match a with
  | Fin x => Fin (- x)
  | PInf => NInf
  | NInf => PInf
  | NaN => NaN
  end.

Definition fsub (a b : float64) : float64 := fadd a (fneg b).

(** [Series.fillna(v)]: only NaN is replaced, an infinity is kept. *)
Definition fillna (v : Q) (x : float64) : float64 :=
  match x with NaN => Fin v | _ => x end.

Definition qmin (a b : Q) : Q := if Qle_bool a b then a else b.

(** [Series.clip(upper=u)]. *)
Definition clip_upper (u : Q) (x : float64) : float64 :=
  match x with
  | Fin q => Fin (qmin q u)
  | PInf => Fin u
  | NInf => NInf
  | NaN => NaN
  end.

(** Nearest integer, ties to the even neighbour (numpy's [rint]). *)
Definition round_half_even (x : Q) : Z :=
  let f := Qfloor x in
  match Qcompare (x - inject_Z f) (1 # 2) with
  | Lt => f
  | Gt => (f + 1)%Z
  | Eq => if Z.even f then f else (f + 1)%Z
  end.

Definition pow10 (d : nat) : Q := inject_Z (10 ^ Z.of_nat d).

(** Rounding of a finite value to [d] decimals: scale, [rint], unscale. *)
Definition round_dec (d : nat) (x : Q) : Q :=
  inject_Z (round_half_even (x * pow10 d)) / pow10 d.

(** [Series.round(d)]. *)
Definition fround (d : nat) (x : float64) : float64 :=
  match x with Fin q => Fin (round_dec d q) | _ => x end.

(** [.astype(int)]: pandas refuses to cast a non-finite value. *)
Definition astype_int (x : float64) : option Z :=
  match x with
  | Fin q => Some (Z.quot (Qnum q) (Z.pos (Qden q)))
  | _ => None
  end.

(** Value equality of cells: finite cells are compared as rationals. *)
Definition feq (a b : float64) : Prop :=
  match a, b with
  | Fin x, Fin y => x == y
  | PInf, PInf | NInf, NInf | NaN, NaN => True
  | _, _ => False
  end.

(** ** Stage 3, section 4: stockout risk (03_predictive_analytics.py) *)

(** A row of [risk_features] after the two merges: the metrics of the
    product, the stock of its latest snapshot (NaN when the left merge
    found none) and its lead time. *)
Record risk_input : Type := mkRiskInput {
  ri_product_id : string;
  avg_demand : float64;
  demand_std : float64;
  stockout_count : Z;
  transaction_count : Z;
  current_stock : float64;
  lead_time_days : Z
}.

Inductive risk_label : Type := LowRisk | MediumRisk | HighRisk.

(** [risk_features['current_stock'].fillna(0)] *)
Definition filled_stock (r : risk_input) : float64 :=
  fillna 0 (current_stock r).

Definition demand_volatility (r : risk_input) : float64 :=
  clip_upper 2 (fillna 0 (fdiv (demand_std r) (avg_demand r))).

Definition historical_stockout_rate (r : risk_input) : float64 :=
  fillna 0 (fdiv (of_int (stockout_count r)) (of_int (transaction_count r))).

Definition days_of_stock (r : risk_input) : float64 :=
  clip_upper 365 (fillna 0 (fdiv (filled_stock r) (avg_demand r))).

(** [Series.max()] of an integer column. *)
Definition series_max (l : list Z) : Z :=
  match l with
  | [] => 0%Z
  | x :: t => fold_left Z.max t x
  end.

Definition max_lead_time (rows : list risk_input) : Z :=
  series_max (map lead_time_days rows).

(** The weighted sum before rounding. *)
Definition raw_risk_score (mx : Z) (r : risk_input) : float64 :=
  fadd (fadd (fadd
    (fmul (Fin 0.30) (historical_stockout_rate r))
    (fmul (Fin 0.25) (clip_upper 1 (demand_volatility r))))
    (fmul (Fin 0.25)
       (fsub (Fin 1) (clip_upper 1 (fdiv (days_of_stock r) (Fin 30))))))
    (fmul (Fin 0.20) (fdiv (of_int (lead_time_days r)) (of_int mx))).

Definition stockout_risk_score (mx : Z) (r : risk_input) : float64 :=
  fround 3 (raw_risk_score mx r).

(** [pd.cut(x, bins, labels)] with the defaults [right=True],
    [include_lowest=False]: bin [i] is the interval (bins[i], bins[i+1]],
    and a value in no bin gets no label. *)
Fixpoint pd_cut {L : Type} (bins : list Q) (labels : list L) (x : Q)
  : option L :=
  match bins, labels with
  | lo :: ((hi :: _) as rest), lab :: labs =>
      if negb (Qle_bool x lo) && Qle_bool x hi then Some lab
      else pd_cut rest labs x
  | _, _ => None
  end.

Definition risk_bins : list Q := [0; 0.35; 0.65; 1.0].
Definition risk_labels : list risk_label := [LowRisk; MediumRisk; HighRisk].

Definition risk_category (score : float64) : option risk_label :=
  match score with
  | Fin q => pd_cut risk_bins risk_labels q
  | _ => None
  end.

Record risk_row : Type := mkRiskRow {
  rr_input : risk_input;
  rr_demand_volatility : float64;
  rr_historical_stockout_rate : float64;
  rr_days_of_stock : float64;
  rr_score : float64;
  rr_category : option risk_label
}.

Definition risk_row_of (mx : Z) (r : risk_input) : risk_row :=
  let s := stockout_risk_score mx r in
  mkRiskRow r (demand_volatility r) (historical_stockout_rate r)
            (days_of_stock r) s (risk_category s).

(** The risk table: one output row per input row, the lead-time maximum
    taken over the whole table. *)
Definition risk_table (rows : list risk_input) : list risk_row :=
  map (risk_row_of (max_lead_time rows)) rows.

(** What the data model promises about a row: demand and stock are not
    negative (a missing deviation or stock is NaN), stockouts are counted
    among the transactions, the lead time is a positive number of days. *)
Definition nonneg_or_nan (x : float64) : Prop :=
  match x with Fin q => 0 <= q | NaN => True | _ => False end.

Definition nonneg_fin (x : float64) : Prop :=
  match x with Fin q => 0 <= q | _ => False end.

Record valid_risk_input (r : risk_input) : Prop := {
  vri_avg : nonneg_fin (avg_demand r);
  vri_std : nonneg_or_nan (demand_std r);
  vri_counts : (0 <= stockout_count r <= transaction_count r)%Z;
  vri_stock : nonneg_or_nan (current_stock r);
  vri_lead : (0 < lead_time_days r)%Z
}.

(** Is the cell a number above zero (or [inf])? *)
Definition is_positive (x : float64) : bool :=
  match x with
  | Fin q => negb (Qle_bool q 0)
  | PInf => true
  | _ => false
  end.

(** Sample rows: a product with no stockouts, steady demand, forty days
    of stock and a one-day lead time, next to a product whose lead time
    is a thousand days; a product whose recorded quantities are all 0
    but which is in stock; and one whose quantities cancel out. *)
Definition sample_quick : risk_input :=
  mkRiskInput "P0001" (Fin 10) (Fin 0) 0 5 (Fin 400) 1.
Definition sample_slow : risk_input :=
  mkRiskInput "P0002" (Fin 10) (Fin 5) 1 5 (Fin 50) 1000.
Definition sample_risk_inputs : list risk_input := [sample_quick; sample_slow].
Definition sample_idle : risk_input :=
  mkRiskInput "P0003" (Fin 0) (Fin 0) 0 3 (Fin 50) 7.
Definition sample_erratic : risk_input :=
  mkRiskInput "P0004" (Fin 0) (Fin 7.07) 0 2 NaN 7.

(** ** Stage 3, section 2: demand forecasting (03_predictive_analytics.py) *)

(** A sales transaction; dates are day numbers. *)
Record sale : Type := mkSale {
  transaction_id : string;
  sale_date : Z;
  sale_product : string;
  sale_warehouse : string;
  quantity_ordered : Z;
  quantity_fulfilled : Z
}.

(** The columns of [product_metrics] that the selection reads. *)
Record product_metric : Type := mkProductMetric {
  pm_product_id : string;
  total_revenue : Q
}.

Record forecast_row : Type := mkForecastRow {
  fr_product_id : string;
  forecast_date : Z;
  forecasted_demand : Q;
  lower_bound : Q;
  upper_bound : Q
}.

(** Insertion of [x] in front of the first element it may precede. *)
Fixpoint insert_by {A : Type} (before : A -> A -> bool) (x : A)
         (l : list A) : list A :=
  match l with
  | [] => [x]
  | y :: t =>
      if before x y then x :: l else y :: insert_by before x t
  end.

(** Insertion sort from the right: among rows that may precede each
    other either way, the earlier row stays first. *)
Definition sort_by {A : Type} (before : A -> A -> bool) (l : list A)
  : list A :=
  fold_right (insert_by before) [] l.

(** [DataFrame.nlargest(n, column)] with [keep='first']: the [n] rows of
    largest key in decreasing order, earlier rows first among equals. *)
Definition nlargest {A : Type} (n : nat) (key : A -> Q) (l : list A)
  : list A :=
  firstn n (sort_by (fun x y => Qle_bool (key y) (key x)) l).

Definition top_products (metrics : list product_metric) : list string :=
  map pm_product_id (nlargest 5 total_revenue metrics).

(** [sales[sales['product_id'] == prod_id]] *)
Definition prod_sales (prod_id : string) (sales : list sale) : list sale :=
  filter (fun s => String.eqb (sale_product s) prod_id) sales.

Definition sum_Z (l : list Z) : Z := fold_right Z.add 0%Z l.

(** The cell of [groupby('date')['quantity_ordered'].sum()] for day [d]
    after [reindex(..., fill_value=0)]: the quantities ordered that day,
    0 when there were none. *)
Definition quantity_on (d : Z) (l : list sale) : Z :=
  sum_Z (map quantity_ordered (filter (fun s => Z.eqb (sale_date s) d) l)).

(** [pd.date_range(start, periods=n, freq='D')] *)
Definition date_range (start : Z) (periods : nat) : list Z :=
  map (fun i => (start + Z.of_nat i)%Z) (seq 0 periods).

Definition series_min (l : list Z) : Z :=
  match l with
  | [] => 0%Z
  | x :: t => fold_left Z.min t x
  end.

(** The dense daily series of one product, from its first to its last
    sale date.  Without any sale the date bounds are missing and
    [pd.date_range] raises. *)
Definition daily_demand (l : list sale) : option (list (Z * Z)) :=
  match l with
  | [] => None
  | _ :: _ =>
      let lo := series_min (map sale_date l) in
      let hi := series_max (map sale_date l) in
      Some (map (fun d => (d, quantity_on d l))
                (date_range lo (Z.to_nat (hi - lo + 1))))
  end.

(** [Series.ewm(span, adjust=False).mean()]: y0 = x0 and
    y(t) = (1 - alpha) * y(t-1) + alpha * x(t), alpha = 2 / (span + 1). *)
Fixpoint ewm_from (alpha prev : Q) (xs : list Q) : list Q :=
  match xs with
  | [] => []
  | x :: t =>
      let y := (1 - alpha) * prev + alpha * x in
      y :: ewm_from alpha y t
  end.

Definition ewm_mean (span : Z) (xs : list Q) : list Q :=
  match xs with
  | [] => []
  | x :: t => x :: ewm_from (2 / (inject_Z span + 1)) x t
  end.

Definition quantities (dd : list (Z * Z)) : list Q :=
  map (fun p => inject_Z (snd p)) dd.

(** [daily_demand['ema_7'].iloc[-1]] *)
Definition last_ema (dd : list (Z * Z)) : Q :=
  last (ewm_mean 7 (quantities dd)) 0.

(** [daily_demand['date'].max()] *)
Definition last_date (dd : list (Z * Z)) : Z := series_max (map fst dd).

Definition forecast_rows_for (prod_id : string) (dd : list (Z * Z))
  : list forecast_row :=
  map (fun d => mkForecastRow prod_id d
                  (round_dec 1 (last_ema dd))
                  (round_dec 1 (last_ema dd * 0.80))
                  (round_dec 1 (last_ema dd * 1.20)))
      (date_range (last_date dd + 1) 30).

(** The body of the loop over the selected products: the rows it
    appends, or [None] when it raises. *)
Definition forecast_product (prod_id : string) (sales : list sale)
  : option (list forecast_row) :=
  match daily_demand (prod_sales prod_id sales) with
  | None => None
  | Some dd =>
      if (60 <? List.length dd)%nat then Some (forecast_rows_for prod_id dd)
      else Some []
  end.

Fixpoint forecasts_list (tops : list string) (sales : list sale)
  : option (list forecast_row) :=
  match tops with
  | [] => Some []
  | p :: rest =>
      match forecast_product p sales with
      | None => None
      | Some rows =>
          match forecasts_list rest sales with
          | None => None
          | Some more => Some (rows ++ more)
          end
      end
  end.

Definition rows_of (p : string) (out : list forecast_row)
  : list forecast_row :=
  filter (fun r => String.eqb (fr_product_id r) p) out.

(** Sample histories: 61 days for the first product, 60 for the second. *)
Definition sample_sales : list sale :=
  [ mkSale "TRX000001" 0 "P0001" "W01" 1 1;
    mkSale "TRX000002" 59 "P0001" "W01" 2 2;
    mkSale "TRX000003" 60 "P0001" "W02" 1 1;
    mkSale "TRX000004" 10 "P0002" "W01" 7 7;
    mkSale "TRX000005" 69 "P0002" "W01" 9 4 ].

Definition sample_product_metrics : list product_metric :=
  [ mkProductMetric "P0002" 80; mkProductMetric "P0001" 100 ].

(** The dense daily series of the first sample product. *)
Definition sample_series : list (Z * Z) :=
  Eval vm_compute in
    match daily_demand (prod_sales "P0001" sample_sales) with
    | Some dd => dd
    | None => []
    end.

(** ** Stage 4, section 2: reorder points (04_prescriptive_analytics.py) *)

(** Nearest integer to the square root of [q >= 0], ties to even:
    with [s] the integer part of [2 * sqrt q], the root lies in
    [s/2, (s+1)/2), and it is a tie exactly when [s] is odd and
    [4 * q = s * s]. *)
Definition round_sqrt (q : Q) : Z :=
  let s := Z.sqrt (Qfloor (4 * q)) in
  if Z.odd s && Qeq_bool (4 * q) (inject_Z (s * s)) then
    let k := (s / 2)%Z in
    if Z.even k then k else (k + 1)%Z
  else ((s + 1) / 2)%Z.

(** Nearest integer to [c * sqrt n]. *)
Definition round_scaled_sqrt (c n : Q) : Z :=
  match Qcompare c 0 with
  | Lt => (- round_sqrt (c * c * n))%Z
  | _ => round_sqrt (c * c * n)
  end.

(** [(c * np.sqrt(n)).round(0).astype(int)].  The root of a negative
    number is NaN, and no non-finite value can be cast. *)
Definition scaled_sqrt_round_int (c n : float64) : option Z :=
  match c, n with
  | Fin x, Fin y =>
      if Qle_bool 0 y then Some (round_scaled_sqrt x y) else None
  | _, _ => None
  end.

(** [np.sqrt(x).round(0).astype(int)] *)
Definition sqrt_round_int (x : float64) : option Z :=
  scaled_sqrt_round_int (Fin 1) x.

Definition ordering_cost : Q := 100.
Definition holding_cost_rate : Q := 0.25.

(** A row of [reorder_optimization]: the columns taken from the risk
    table, merged with the unit cost of the product. *)
Record reorder_input : Type := mkReorderInput {
  ro_risk : risk_input;
  unit_cost : float64
}.

Definition annual_demand (r : reorder_input) : float64 :=
  fmul (avg_demand (ro_risk r)) (Fin 365).

Definition holding_cost (r : reorder_input) : float64 :=
  fmul (unit_cost r) (Fin holding_cost_rate).

Definition eoq (annual holding : float64) : option Z :=
  sqrt_round_int
    (fdiv (fmul (fmul (Fin 2) annual) (Fin ordering_cost)) holding).

Definition optimal_order_quantity (r : reorder_input) : option Z :=
  eoq (annual_demand r) (holding_cost r).

Definition safety_stock (r : reorder_input) : option Z :=
  scaled_sqrt_round_int
    (fmul (Fin 1.65) (demand_std (ro_risk r)))
    (of_int (lead_time_days (ro_risk r))).

Definition optimal_reorder_point (r : reorder_input) : option Z :=
  match safety_stock r with
  | None => None
  | Some ss =>
      astype_int
        (fround 0
           (fadd (fmul (avg_demand (ro_risk r))
                       (of_int (lead_time_days (ro_risk r))))
                 (of_int ss)))
  end.

(** The same row with another average demand, everything else fixed. *)
Definition with_avg_demand (a : float64) (r : reorder_input)
  : reorder_input :=
  let k := ro_risk r in
  mkReorderInput
    (mkRiskInput (ri_product_id k) a (demand_std k) (stockout_count k)
                 (transaction_count k) (current_stock k) (lead_time_days k))
    (unit_cost r).

(** Sample rows: the product of the safety-stock example (deviation 10,
    lead time 9), and a product that costs nothing. *)
Definition sample_reorder : reorder_input :=
  mkReorderInput
    (mkRiskInput "P0001" (Fin 10) (Fin 10) 1 5 (Fin 50) 9) (Fin 20).
Definition sample_free : reorder_input :=
  mkReorderInput
    (mkRiskInput "P0005" (Fin 10) (Fin 5) 0 5 (Fin 50) 7) (Fin 0).

(** ** Stage 2, sections 2 and 3: cleaning and joins (02_transform_data.py) *)

Record product : Type := mkProduct {
  product_id : string;
  product_name : string;
  category : string;
  prod_unit_cost : float64;
  prod_lead_time_days : Z;
  unit_price : float64
}.

Record supplier : Type := mkSupplier {
  supplier_id : string;
  supplier_name : string;
  country : string;
  reliability : float64
}.

Record supply_order : Type := mkSupplyOrder {
  order_id : string;
  order_date : Z;
  order_supplier : string;
  order_product : string;
  qty_ordered : Z;
  delivery_days_actual : Z
}.

(** [DataFrame.drop_duplicates(subset=[key])] with [keep='first']: a row
    is dropped when an earlier row has its key. *)
Fixpoint drop_duplicates_from {A : Type} (key : A -> string)
         (seen : list string) (l : list A) : list A :=
  match l with
  | [] => []
  | x :: t =>
      if existsb (String.eqb (key x)) seen
      then drop_duplicates_from key seen t
      else x :: drop_duplicates_from key (key x :: seen) t
  end.

Definition drop_duplicates {A : Type} (key : A -> string) (l : list A)
  : list A :=
  drop_duplicates_from key [] l.

(** [left.merge(right, on=key, how='left')]: every left row, in order,
    once per right row with its key, or once with missing right-hand
    columns when there is none. *)
Definition merge_left {L R : Type} (lkey : L -> string) (rkey : R -> string)
           (left : list L) (right : list R) : list (L * option R) :=
  flat_map
    (fun l =>
       match filter (fun r => String.eqb (rkey r) (lkey l)) right with
       | [] => [(l, None)]
       | ms => map (fun r => (l, Some r)) ms
       end)
    left.

Definition clean_sales (raw : list sale) : list sale :=
  drop_duplicates transaction_id raw.

Definition clean_orders (raw : list supply_order) : list supply_order :=
  drop_duplicates order_id raw.

(** The sales table after the join with the products. *)
Definition enriched_sales (raw : list sale) (products : list product)
  : list (sale * option product) :=
  merge_left sale_product product_id (clean_sales raw) products.

(** The supply orders after the joins with the suppliers, with the lead
    time of the product and with its unit cost. *)
Definition enriched_orders (raw : list supply_order)
           (suppliers : list supplier) (products : list product)
  : list (supply_order * option supplier * option product * option product) :=
  merge_left (fun e => order_product (fst (fst e))) product_id
    (merge_left (fun e => order_product (fst e)) product_id
       (merge_left order_supplier supplier_id (clean_orders raw) suppliers)
       products)
    products.

Definition sale_of (e : sale * option product) : sale := fst e.

Definition order_of
  (e : supply_order * option supplier * option product * option product)
  : supply_order :=
  fst (fst (fst e)).

(** [groupby('product_id')] ... ['transaction_id': 'count'] for one
    product: the enriched rows of that product. *)
Definition transaction_count_of (p : string)
           (rows : list (sale * option product)) : nat :=
  List.length
    (filter (fun e => String.eqb (sale_product (sale_of e)) p) rows).

(** [groupby('warehouse_id')] ... ['transaction_id': 'count'] for one
    warehouse. *)
Definition warehouse_transaction_count_of (w : string)
           (rows : list (sale * option product)) : nat :=
  List.length
    (filter (fun e => String.eqb (sale_warehouse (sale_of e)) w) rows).

(** [groupby('supplier_id')] ... ['order_id': 'count'] for one supplier. *)
Definition total_orders_of (sup : string)
  (rows : list (supply_order * option supplier * option product
                * option product)) : nat :=
  List.length
    (filter (fun e => String.eqb (order_supplier (order_of e)) sup) rows).

Definition has_key {A : Type} (key : A -> string) (k : string) (x : A)
  : bool :=
  String.eqb (key x) k.

(** Sample raw tables: the second transaction is repeated, with another
    quantity, and so is the first order. *)
Definition sample_products : list product :=
  [ mkProduct "P0001" "Item_1" "Food" (Fin 20) 9 (Fin 30);
    mkProduct "P0002" "Item_2" "Apparel" (Fin 12.5) 4 (Fin 20) ].

Definition sample_suppliers : list supplier :=
  [ mkSupplier "S001" "Supplier_A" "India" (Fin 0.9);
    mkSupplier "S002" "Supplier_B" "Japan" (Fin 0.8) ].

Definition sample_raw_sales : list sale :=
  [ mkSale "TRX000001" 0 "P0001" "W01" 5 5;
    mkSale "TRX000002" 1 "P0002" "W01" 7 7;
    mkSale "TRX000002" 2 "P0002" "W02" 9 4;
    mkSale "TRX000003" 2 "P0001" "W02" 3 3 ].

Definition sample_raw_orders : list supply_order :=
  [ mkSupplyOrder "PO00001" 0 "S001" "P0001" 100 9;
    mkSupplyOrder "PO00001" 0 "S001" "P0001" 100 9;
    mkSupplyOrder "PO00002" 3 "S002" "P0002" 200 6 ].

(** ** Stage 2, section 3.3: fulfilment (02_transform_data.py) *)

Definition stockout_flag (s : sale) : Z :=
  if (quantity_fulfilled s <? quantity_ordered s)%Z then 1%Z else 0%Z.

Definition fulfillment_rate (s : sale) : float64 :=
  fround 3 (fdiv (of_int (quantity_fulfilled s)) (of_int (quantity_ordered s))).

(** ** Stage 4, section 3: supplier ranking (04_prescriptive_analytics.py) *)

(** The columns of [supplier_metrics] that the ranking reads. *)
Record supplier_metric : Type := mkSupplierMetric {
  sm_supplier_id : string;
  avg_delivery_time : float64;
  on_time_rate : float64;
  reliability_score : float64
}.

Inductive tier : Type := Preferred | Approved | ReviewRequired.

Record ranked_supplier : Type := mkRanked {
  rk_metric : supplier_metric;
  rk_cost_efficiency : float64;
  rk_performance_score : float64;
  rk_rank : nat;
  rk_recommendation : tier
}.

Definition is_nan (x : float64) : bool :=
  match x with NaN => true | _ => false end.

(** [a <= b] on cells; any comparison with NaN is false. *)
Definition fle_bool (a b : float64) : bool :=
  match a, b with
  | NaN, _ | _, NaN => false
  | NInf, _ | _, PInf => true
  | Fin x, Fin y => Qle_bool x y
  | _, _ => false
  end.

(** [a < b] on cells. *)
Definition flt_bool (a b : float64) : bool :=
  fle_bool a b && negb (fle_bool b a).

(** [Series.max()] of a float column: NaN cells are skipped. *)
Definition fmax2 (a b : float64) : float64 :=
  match a, b with
  | NaN, x | x, NaN => x
  | _, _ => if fle_bool a b then b else a
  end.

Definition fseries_max (l : list float64) : float64 :=
  fold_left fmax2 l NaN.

Definition max_delivery_time (metrics : list supplier_metric) : float64 :=
  fseries_max (map avg_delivery_time metrics).

Definition cost_efficiency (mx : float64) (m : supplier_metric) : float64 :=
  fsub (Fin 1) (fdiv (avg_delivery_time m) mx).

Definition performance_score (mx : float64) (m : supplier_metric)
  : float64 :=
  fround 3
    (fadd (fadd (fmul (Fin 0.40) (on_time_rate m))
                (fmul (Fin 0.30) (reliability_score m)))
          (fmul (Fin 0.30) (cost_efficiency mx m))).

(** In a descending order with missing values last, a row with key [a]
    may stand before a row with key [b]. *)
Definition desc_before (a b : float64) : bool :=
  is_nan b || fle_bool b a.

(** [sort_values(column, ascending=False)] is called with the default
    [kind='quicksort'], for which pandas promises a rearrangement of the
    rows in descending order of the column, NaN last, and nothing about
    rows with equal keys.  The result is therefore specified, not
    computed: [out] is any such rearrangement of [inp]. *)
Definition sort_values_desc {A : Type} (key : A -> float64)
           (inp out : list A) : Prop :=
  Permutation inp out /\
  StronglySorted (fun a b => desc_before (key a) (key b) = true) out.

Definition recommendation (rank : nat) : tier :=
  if (rank <=? 5)%nat then Preferred
  else if (rank <=? 15)%nat then Approved
  else ReviewRequired.

(** [rank = range(1, len + 1)] down the sorted rows, and its tier. *)
Fixpoint rank_from (mx : float64) (k : nat) (sorted : list supplier_metric)
  : list ranked_supplier :=
  match sorted with
  | [] => []
  | m :: t =>
      mkRanked m (cost_efficiency mx m) (performance_score mx m) k
               (recommendation k)
      :: rank_from mx (S k) t
  end.

Definition rank_rows (mx : float64) (sorted : list supplier_metric)
  : list ranked_supplier :=
  rank_from mx 1 sorted.

(** The ranking tables the stage can produce from [metrics]. *)
Definition supplier_ranking_of (metrics : list supplier_metric)
           (table : list ranked_supplier) : Prop :=
  exists sorted,
    sort_values_desc (performance_score (max_delivery_time metrics))
                     metrics sorted /\
    table = rank_rows (max_delivery_time metrics) sorted.

(** One of them: the table obtained with a stable sort. *)
Definition supplier_ranking_stable (metrics : list supplier_metric)
  : list ranked_supplier :=
  let mx := max_delivery_time metrics in
  rank_rows mx
    (sort_by (fun x y => desc_before (performance_score mx x)
                                     (performance_score mx y))
             metrics).

(** Sample suppliers: the first two have the same figures. *)
Definition sample_metrics : list supplier_metric :=
  [ mkSupplierMetric "S001" (Fin 10) (Fin 0.9) (Fin 0.8);
    mkSupplierMetric "S002" (Fin 10) (Fin 0.9) (Fin 0.8);
    mkSupplierMetric "S003" (Fin 20) (Fin 0.95) (Fin 0.9) ].


(** ** Stage 2, sections 3.2 to 4.3: derived columns and aggregates *)

(** The columns a left join brings in are NaN on a row without a
    match. *)
Definition merged_unit_price (e : sale * option product) : float64 :=
  match snd e with Some p => unit_price p | None => NaN end.

Definition merged_unit_cost (e : sale * option product) : float64 :=
  match snd e with Some p => prod_unit_cost p | None => NaN end.

Definition revenue (e : sale * option product) : float64 :=
  fmul (of_int (quantity_fulfilled (sale_of e))) (merged_unit_price e).

Definition cost (e : sale * option product) : float64 :=
  fmul (of_int (quantity_fulfilled (sale_of e))) (merged_unit_cost e).

Definition profit (e : sale * option product) : float64 :=
  fsub (revenue e) (cost e).

(** [expected_delivery_days]: the lead time of the ordered product. *)
Definition expected_delivery_days
  (e : supply_order * option supplier * option product * option product)
  : float64 :=
  match snd (fst e) with
  | Some p => of_int (prod_lead_time_days p)
  | None => NaN
  end.

Definition delay_days
  (e : supply_order * option supplier * option product * option product)
  : float64 :=
  fsub (of_int (delivery_days_actual (order_of e)))
       (expected_delivery_days e).

(** [(delay_days > 0).astype(int)]; a comparison with NaN is false. *)
Definition is_delayed
  (e : supply_order * option supplier * option product * option product)
  : Z :=
  if flt_bool (Fin 0) (delay_days e) then 1%Z else 0%Z.

(** [groupby('supplier_id')] ... ['is_delayed': 'sum'] for one supplier. *)
Definition delayed_orders_of (sup : string)
  (rows : list (supply_order * option supplier * option product
                * option product)) : Z :=
  sum_Z (map is_delayed
           (filter (fun e => String.eqb (order_supplier (order_of e)) sup)
                   rows)).

Definition on_time_rate_of (sup : string)
  (rows : list (supply_order * option supplier * option product
                * option product)) : float64 :=
  fround 3
    (fsub (Fin 1)
       (fdiv (of_int (delayed_orders_of sup rows))
             (of_int (Z.of_nat (total_orders_of sup rows))))).

(** [groupby('product_id')] ... ['stockout_flag': 'sum'] for one
    product. *)
Definition stockout_count_of (p : string)
           (rows : list (sale * option product)) : Z :=
  sum_Z (map (fun e => stockout_flag (sale_of e))
           (filter (fun e => String.eqb (sale_product (sale_of e)) p) rows)).

Definition stockout_rate_of (p : string)
           (rows : list (sale * option product)) : float64 :=
  fround 3
    (fdiv (of_int (stockout_count_of p rows))
          (of_int (Z.of_nat (transaction_count_of p rows)))).

(** ** Stage 3, section 2: the moving average *)

Definition sum_Q (l : list Q) : Q := fold_right Qplus 0 l.

Definition mean_Q (l : list Q) : Q :=
  sum_Q l / inject_Z (Z.of_nat (List.length l)).

(** The values that the window of width [w] ending at position [i]
    covers: the last [w] of the first [i + 1] values, fewer at the
    start of the series. *)
Definition window_at (w i : nat) (xs : list Q) : list Q :=
  skipn (S i - w) (firstn (S i) xs).

(** [Series.rolling(window=w, min_periods=1).mean()] *)
Definition rolling_mean (w : nat) (xs : list Q) : list Q :=
  map (fun i => mean_Q (window_at w i xs)) (seq 0 (List.length xs)).

(** [daily_demand['ma_7']] *)
Definition ma_7 (dd : list (Z * Z)) : list Q :=
  rolling_mean 7 (quantities dd).

(** The same risk row with another stock level. *)
Definition with_current_stock (c : float64) (r : risk_input) : risk_input :=
  mkRiskInput (ri_product_id r) (avg_demand r) (demand_std r)
              (stockout_count r) (transaction_count r) c
              (lead_time_days r).

(** ** Stage 4, section 2: inventory level and costs *)

Definition qmax (a b : Q) : Q := if Qle_bool a b then b else a.

(** [Series.clip(lower=l)]. *)
Definition clip_lower (l : Q) (x : float64) : float64 :=
  match x with
  | Fin q => Fin (qmax q l)
  | NInf => Fin l
  | PInf => PInf
  | NaN => NaN
  end.

(** The cost columns of a row, given the integer columns computed
    before them: [ss] the safety stock, [q] the order quantity, [ail]
    the average inventory level.  The stock is the column of the risk
    table, where a missing stock is already 0. *)
Definition avg_inventory_level (ss q : Z) : option Z :=
  astype_int (fround 0 (fadd (of_int ss) (fdiv (of_int q) (Fin 2)))).

Definition annual_carrying_cost (ail : Z) (r : reorder_input) : float64 :=
  fround 2 (fmul (fmul (of_int ail) (unit_cost r)) (Fin holding_cost_rate)).

Definition orders_per_year (r : reorder_input) (q : Z) : float64 :=
  fround 1 (fdiv (annual_demand r) (of_int q)).

Definition annual_ordering_cost (r : reorder_input) (q : Z) : float64 :=
  fround 2 (fmul (orders_per_year r q) (Fin ordering_cost)).

Definition total_annual_cost (r : reorder_input) (ail q : Z) : float64 :=
  fround 2 (fadd (annual_carrying_cost ail r) (annual_ordering_cost r q)).

Definition current_carrying_cost (r : reorder_input) : float64 :=
  fround 2 (fmul (fmul (filled_stock (ro_risk r)) (unit_cost r))
                 (Fin holding_cost_rate)).

Definition potential_savings (r : reorder_input) (ail : Z) : float64 :=
  fround 2
    (clip_lower 0
       (fsub (current_carrying_cost r) (annual_carrying_cost ail r))).

(** ** Stage 4, section 3: tiers *)

Definition tier_eqb (a b : tier) : bool :=
  match a, b with
  | Preferred, Preferred | Approved, Approved
  | ReviewRequired, ReviewRequired => true
  | _, _ => false
  end.

(** [len(supplier_ranking[supplier_ranking['recommendation'] == t])] *)
Definition count_tier (t : tier) (table : list ranked_supplier) : nat :=
  List.length (filter (fun a => tier_eqb (rk_recommendation a) t) table).

(** What the data model and stage 2 promise about a supplier row: a
    positive average delivery time, an on-time rate and a reliability
    between 0 and 1. *)
Definition pos_fin (x : float64) : Prop :=
  match x with Fin q => 0 < q | _ => False end.

Definition unit_fin (x : float64) : Prop :=
  match x with Fin q => 0 <= q <= 1 | _ => False end.

Record valid_supplier_metric (m : supplier_metric) : Prop := {
  vsm_delivery : pos_fin (avg_delivery_time m);
  vsm_on_time : unit_fin (on_time_rate m);
  vsm_reliability : unit_fin (reliability_score m)
}.

(** ** Stage 4, section 4: what-if scenarios *)

Definition avg_lead_time_reduction : Q := 0.15.

(** [(safety_stock * 1.20).astype(int)] *)
Definition scenario_safety_stock (ss : Z) : option Z :=
  astype_int (fmul (of_int ss) (Fin 1.20)).

(** [(lead_time_days * (1 - avg_lead_time_reduction)).round(0).astype(int)] *)
Definition scenario_lead_time (lead : Z) : option Z :=
  astype_int
    (fround 0 (fmul (of_int lead) (Fin (1 - avg_lead_time_reduction)))).

(** [(safety_stock + optimal_order_quantity / 2).astype(int)] *)
Definition scenario_avg_inventory (ss q : Z) : option Z :=
  astype_int (fadd (of_int ss) (fdiv (of_int q) (Fin 2))).

(** The sum of an integer column computed row by row. *)
Fixpoint sum_column {A : Type} (f : A -> option Z) (l : list A)
  : option Z :=
  match l with
  | [] => Some 0%Z
  | x :: t =>
      match f x, sum_column f t with
      | Some a, Some b => Some (a + b)%Z
      | _, _ => None
      end
  end.

(** [stock_reduction], over the rows given by their safety stock and
    order quantity. *)
Definition stock_reduction (rows : list (Z * Z)) : option Z :=
  match sum_column (fun r => avg_inventory_level (fst r) (snd r)) rows,
        sum_column (fun r => scenario_avg_inventory (fst r) (snd r)) rows
  with
  | Some a, Some b => Some (a - b)%Z
  | _, _ => None
  end.

Definition qabs (x : Q) : Q := if Qle_bool 0 x then x else - x.

(** [abs(stock_reduction * 100 * holding_cost_rate)] *)
Definition cost_savings_scenario_2 (rows : list (Z * Z)) : option Q :=
  option_map (fun d => qabs (inject_Z d * 100 * holding_cost_rate))
             (stock_reduction rows).

(** [len(high_risk_products) if len(high_risk_products) > 0
     else len(medium_risk_products.head(10))] *)
Definition risk_products_count (high medium : nat) : nat :=
  if (0 <? high)%nat then high else Nat.min medium 10.

Definition scenario_3_automation_benefit (count : nat) : Z :=
  if (0 <? count)%nat then (Z.of_nat count * 2000)%Z else 10000%Z.

Inductive scenario_3_advice : Type := ImplementImmediately | EvaluateFurther.

Definition scenario_3_recommendation (benefit : Z) : scenario_3_advice :=
  if (5000 <? benefit)%Z then ImplementImmediately else EvaluateFurther.

(** ** Stage 5, section 7: stock status (05_dashboard_outputs.py) *)

Inductive stock_status : Type := Critical | Warning | Normal.

Definition status (days : float64) : stock_status :=
  if flt_bool days (Fin 7) then Critical
  else if flt_bool days (Fin 14) then Warning
  else Normal.

(* ================================================================== *)
(** * Part II: properties                                              *)
(* ================================================================== *)

(** ** Rounding *)

Lemma inject_Z_succ (z : Z) : inject_Z (z + 1) == inject_Z z + 1.
Proof. rewrite inject_Z_plus. reflexivity. Qed.

Lemma floor_bounds (x : Q) :
  inject_Z (Qfloor x) <= x /\ x < inject_Z (Qfloor x) + 1.
Proof.
  split; [apply Qfloor_le |].
  rewrite <- inject_Z_succ. apply Qlt_floor.
Qed.

Lemma round_half_even_cases (x : Q) :
  (round_half_even x = Qfloor x /\ x - inject_Z (Qfloor x) <= 1 # 2) \/
  (round_half_even x = (Qfloor x + 1)%Z /\ 1 # 2 <= x - inject_Z (Qfloor x)).
Proof.
  unfold round_half_even.
  destruct (Qcompare_spec (x - inject_Z (Qfloor x)) (1 # 2)) as [E | E | E].
  - destruct (Z.even (Qfloor x)); [left | right]; split; trivial;
      rewrite E; apply Qle_refl.
  - left. split; trivial. apply Qlt_le_weak, E.
  - right. split; trivial. apply Qlt_le_weak, E.
Qed.

Lemma round_half_even_lower (x : Q) :
  x - (1 # 2) <= inject_Z (round_half_even x).
Proof.
  destruct (floor_bounds x) as [Hlo Hhi].
  destruct (round_half_even_cases x) as [[-> H] | [-> H]];
    [| rewrite inject_Z_succ]; lra.
Qed.

Lemma round_half_even_upper (x : Q) :
  inject_Z (round_half_even x) <= x + (1 # 2).
Proof.
  destruct (floor_bounds x) as [Hlo Hhi].
  destruct (round_half_even_cases x) as [[-> H] | [-> H]];
    [| rewrite inject_Z_succ]; lra.
Qed.

Lemma round_half_even_Z (z : Z) : round_half_even (inject_Z z) = z.
Proof.
  unfold round_half_even. rewrite Qfloor_Z.
  destruct (Qcompare_spec (inject_Z z - inject_Z z) (1 # 2)) as [E | E | E];
    try reflexivity; lra.
Qed.

Lemma round_half_even_mono (x y : Q) :
  x <= y -> (round_half_even x <= round_half_even y)%Z.
Proof.
  intros Hxy.
  pose proof (Qfloor_resp_le _ _ Hxy) as Hf.
  destruct (Z.eq_dec (Qfloor x) (Qfloor y)) as [E | NE].
  - unfold round_half_even. rewrite E.
    destruct (Qcompare_spec (x - inject_Z (Qfloor y)) (1 # 2)) as [A | A | A];
      destruct (Qcompare_spec (y - inject_Z (Qfloor y)) (1 # 2)) as [B | B | B];
      try destruct (Z.even (Qfloor y)); try lia; lra.
  - destruct (round_half_even_cases x) as [[-> _] | [-> _]];
      destruct (round_half_even_cases y) as [[-> _] | [-> _]]; lia.
Qed.

Lemma pow10_pos (d : nat) : 0 < pow10 d.
Proof.
  unfold pow10. change 0 with (inject_Z 0). rewrite <- Zlt_Qlt.
  apply Z.pow_pos_nonneg; lia.
Qed.

Lemma round_dec_unit (d : nat) (x : Q) :
  0 <= x <= 1 -> 0 <= round_dec d x <= 1.
Proof.
  intros [H0 H1]. unfold round_dec.
  pose proof (pow10_pos d) as Hp.
  assert (Hlo : (0 <= round_half_even (x * pow10 d))%Z).
  { rewrite <- (round_half_even_Z 0). apply round_half_even_mono.
    change (inject_Z 0) with 0. nra. }
  assert (Hhi : (round_half_even (x * pow10 d) <= 10 ^ Z.of_nat d)%Z).
  { etransitivity; [apply (round_half_even_mono _ (pow10 d)); nra |].
    unfold pow10. rewrite round_half_even_Z. lia. }
  split.
  - apply Qle_shift_div_l; trivial. rewrite Qmult_0_l.
    change 0 with (inject_Z 0). rewrite <- Zle_Qle. exact Hlo.
  - apply Qle_shift_div_r; trivial. rewrite Qmult_1_l.
    unfold pow10. rewrite <- Zle_Qle. exact Hhi.
Qed.

Lemma round_dec_mono (d : nat) (x y : Q) :
  x <= y -> round_dec d x <= round_dec d y.
Proof.
  intros H. unfold round_dec. pose proof (pow10_pos d) as Hp.
  apply Qmult_le_compat_r.
  - rewrite <- Zle_Qle. apply round_half_even_mono. nra.
  - apply Qlt_le_weak, Qinv_lt_0_compat, Hp.
Qed.

(** ** Clipping and guarded ratios *)

Lemma qmin_spec (a b : Q) :
  (a <= b /\ qmin a b = a) \/ (b < a /\ qmin a b = b).
Proof.
  unfold qmin. destruct (Qle_bool a b) eqn:E.
  - left. split; trivial. apply Qle_bool_iff, E.
  - right. split; trivial. apply Qnot_le_lt. intros H.
    apply Qle_bool_iff in H. congruence.
Qed.

Lemma qmin_bounds (a u : Q) : 0 <= a -> 0 <= u -> 0 <= qmin a u <= u.
Proof.
  intros Ha Hu. destruct (qmin_spec a u) as [[H ->] | [H ->]]; lra.
Qed.

Lemma fdiv_fin_pos (x y : Q) : 0 < y -> fdiv (Fin x) (Fin y) = Fin (x / y).
Proof.
  intros H. simpl. destruct (Qcompare_spec y 0) as [E | E | E];
    try reflexivity; lra.
Qed.

Lemma Qdiv_nonneg (x y : Q) : 0 <= x -> 0 < y -> 0 <= x / y.
Proof.
  intros Hx Hy. apply Qle_shift_div_l; trivial. lra.
Qed.

Lemma Qdiv_le_1 (x y : Q) : x <= y -> 0 < y -> x / y <= 1.
Proof.
  intros Hx Hy. apply Qle_shift_div_r; trivial. lra.
Qed.

(** A ratio of two non-negative columns, NaN replaced by 0 and capped at
    [u], is a finite number between 0 and [u]: the cap absorbs the
    infinity of a zero divisor. *)
Lemma clipped_ratio (a b : float64) (u : Q) :
  nonneg_or_nan a -> nonneg_fin b -> 0 <= u ->
  exists v, clip_upper u (fillna 0 (fdiv a b)) = Fin v /\ 0 <= v <= u.
Proof.
  intros Ha Hb Hu.
  destruct b as [y | | |]; simpl in Hb; try contradiction.
  destruct a as [x | | |]; simpl in Ha; try contradiction.
  - simpl. destruct (Qcompare_spec y 0) as [E | E | E].
    + destruct (Qcompare_spec x 0) as [F | F | F]; simpl.
      * exists (qmin 0 u). split; trivial. apply qmin_bounds; lra.
      * lra.
      * exists u. split; trivial. lra.
    + lra.
    + simpl. exists (qmin (x / y) u). split; trivial.
      apply qmin_bounds; trivial. apply Qdiv_nonneg; trivial.
  - simpl. exists (qmin 0 u). split; trivial. apply qmin_bounds; lra.
Qed.

Lemma filled_stock_nonneg (r : risk_input) :
  nonneg_or_nan (current_stock r) -> nonneg_fin (filled_stock r).
Proof.
  unfold filled_stock. destruct (current_stock r); simpl; trivial; lra.
Qed.

Lemma nonneg_fin_or_nan (x : float64) : nonneg_fin x -> nonneg_or_nan x.
Proof. destruct x; simpl; trivial. Qed.

Lemma stockout_rate_unit (r : risk_input) :
  (0 <= stockout_count r <= transaction_count r)%Z ->
  exists h, historical_stockout_rate r = Fin h /\ 0 <= h <= 1.
Proof.
  intros [H0 H1]. unfold historical_stockout_rate, of_int.
  assert (Hs : 0 <= inject_Z (stockout_count r)).
  { change 0 with (inject_Z 0). rewrite <- Zle_Qle. exact H0. }
  assert (Hst : inject_Z (stockout_count r) <= inject_Z (transaction_count r)).
  { rewrite <- Zle_Qle. exact H1. }
  simpl.
  destruct (Qcompare_spec (inject_Z (transaction_count r)) 0) as [E | E | E].
  - destruct (Qcompare_spec (inject_Z (stockout_count r)) 0) as [F | F | F];
      simpl; try lra.
    exists 0. split; trivial. lra.
  - lra.
  - simpl. eexists. split; [reflexivity |]. split.
    + apply Qdiv_nonneg; trivial.
    + apply Qdiv_le_1; trivial.
Qed.

Lemma fold_max_ge (l : list Z) (a : Z) :
  (a <= fold_left Z.max l a)%Z /\
  forall x, In x l -> (x <= fold_left Z.max l a)%Z.
Proof.
  revert a. induction l as [| y l IH]; intros a; simpl.
  - split; [lia | tauto].
  - destruct (IH (Z.max a y)) as [Ha Hl]. split; [lia |].
    intros x [-> | Hx]; [lia | auto].
Qed.

Lemma series_max_ge (l : list Z) (x : Z) :
  In x l -> (x <= series_max l)%Z.
Proof.
  destruct l as [| a l]; simpl; [tauto |].
  destruct (fold_max_ge l a) as [Ha Hl].
  intros [<- | Hx]; auto.
Qed.

Lemma lead_ratio_unit (lead mx : Z) :
  (0 < lead <= mx)%Z ->
  fdiv (of_int lead) (of_int mx) = Fin (inject_Z lead / inject_Z mx) /\
  0 < inject_Z lead / inject_Z mx <= 1.
Proof.
  intros [H0 H1]. unfold of_int.
  assert (Hl : 0 < inject_Z lead).
  { change 0 with (inject_Z 0). rewrite <- Zlt_Qlt. exact H0. }
  assert (Hm : inject_Z lead <= inject_Z mx) by (rewrite <- Zle_Qle; exact H1).
  assert (Hp : 0 < inject_Z mx) by lra.
  split; [apply fdiv_fin_pos, Hp |]. split.
  - apply Qlt_shift_div_l; trivial; lra.
  - apply Qdiv_le_1; trivial.
Qed.

(** ** The composite risk score *)

(** The four terms of the score, on a valid row of a table in which the
    lead-time maximum is [mx]. *)
Lemma risk_terms (mx : Z) (r : risk_input) :
  valid_risk_input r -> (lead_time_days r <= mx)%Z ->
  exists hsr dv dos : Q,
    historical_stockout_rate r = Fin hsr /\
    demand_volatility r = Fin dv /\
    days_of_stock r = Fin dos /\
    raw_risk_score mx r =
      Fin (0.30 * hsr + 0.25 * qmin dv 1 + 0.25 * (1 + - qmin (dos / 30) 1)
           + 0.20 * (inject_Z (lead_time_days r) / inject_Z mx)) /\
    0 <= hsr <= 1 /\ 0 <= dv <= 2 /\ 0 <= dos <= 365.
Proof.
  intros [Havg Hstd Hcnt Hstk Hlead] Hmx.
  destruct (stockout_rate_unit r Hcnt) as (hsr & Eh & Hh).
  destruct (clipped_ratio (demand_std r) (avg_demand r) 2 Hstd Havg)
    as (dv & Ev & Hv); [lra |].
  destruct (clipped_ratio (filled_stock r) (avg_demand r) 365
              (nonneg_fin_or_nan _ (filled_stock_nonneg r Hstk)) Havg)
    as (dos & Ed & Hd); [lra |].
  destruct (lead_ratio_unit (lead_time_days r) mx) as [El Hl]; [lia |].
  exists hsr, dv, dos.
  unfold raw_risk_score, demand_volatility, days_of_stock.
  rewrite Eh, Ev, Ed, El.
  rewrite (fdiv_fin_pos dos 30) by lra.
  repeat split; tauto || reflexivity.
Qed.

Lemma risk_formula_unit (hsr dv dos l : Q) :
  0 <= hsr <= 1 -> 0 <= dv -> 0 <= dos -> 0 <= l <= 1 ->
  0 <= 0.30 * hsr + 0.25 * qmin dv 1 + 0.25 * (1 + - qmin (dos / 30) 1)
       + 0.20 * l <= 1.
Proof.
  intros Hh Hv Hd Hl.
  assert (Hq : 0 <= dos / 30) by (apply Qdiv_nonneg; lra).
  pose proof (qmin_bounds dv 1 Hv) as B1.
  pose proof (qmin_bounds (dos / 30) 1 Hq) as B2.
  lra.
Qed.


Lemma sample_risk_inputs_valid : Forall valid_risk_input sample_risk_inputs.
Proof.
  repeat constructor; simpl; try lia; unfold Qle; simpl; lia.
Qed.


Example sample_slow_score :
  feq (stockout_risk_score (max_lead_time sample_risk_inputs) sample_slow)
      (Fin 0.593).
Proof. vm_compute. reflexivity. Qed.

(** ** Risk categories *)

Lemma Qle_bool_false (a b : Q) : Qle_bool a b = false <-> b < a.
Proof.
  split; intros H.
  - apply Qnot_le_lt. intros L. apply Qle_bool_iff in L. congruence.
  - destruct (Qle_bool a b) eqn:E; trivial.
    apply Qle_bool_iff in E. lra.
Qed.

(** The label of a finite score, bin by bin: each bin excludes its left
    edge and includes its right edge, and nothing is labelled at or
    below 0 or above 1. *)
Lemma risk_category_bins (q : Q) :
  (risk_category (Fin q) = Some LowRisk <-> 0 < q <= 0.35) /\
  (risk_category (Fin q) = Some MediumRisk <-> 0.35 < q <= 0.65) /\
  (risk_category (Fin q) = Some HighRisk <-> 0.65 < q <= 1) /\
  (risk_category (Fin q) = None <-> q <= 0 \/ 1 < q).
Proof.
  unfold risk_category, risk_bins, risk_labels, pd_cut.
  destruct (Qle_bool q 0) eqn:E0; destruct (Qle_bool q 0.35) eqn:E1;
    destruct (Qle_bool q 0.65) eqn:E2; destruct (Qle_bool q 1.0) eqn:E3;
    simpl;
    repeat match goal with
    | H : Qle_bool _ _ = true |- _ => apply Qle_bool_iff in H
    | H : Qle_bool _ _ = false |- _ => apply Qle_bool_false in H
    end;
    repeat split; intros; try discriminate; try lra;
    try reflexivity; try (exfalso; lra).
Qed.

(** C2, at the score the bins miss: the quick product of the sample
    table is a valid row, its score rounds to exactly 0, and
    [pd.cut] gives it no category at all, although 0 <= 0.35. *)
Theorem zero_score_has_no_category :
  Forall valid_risk_input sample_risk_inputs /\
  exists row s,
    In row (risk_table sample_risk_inputs) /\
    rr_input row = sample_quick /\
    rr_score row = Fin s /\ s == 0 /\ s <= 0.35 /\
    rr_category row = None.
Proof.
  split; [exact sample_risk_inputs_valid |].
  eexists. eexists. split; [left; reflexivity |].
  repeat split; try reflexivity.
  vm_compute. discriminate.
Qed.

(** ** Zero average demand *)

(** C7, as the code has it: when avg_demand is 0 the two ratios are
    finite but not always 0.  A zero (or missing) numerator gives NaN,
    which [fillna(0)] turns into 0; a positive numerator gives [inf],
    which [fillna] leaves alone and the cap turns into 2 for
    demand_volatility and into 365 for days_of_stock. *)
Theorem zero_demand_ratios (r : risk_input) (a : Q) :
  avg_demand r = Fin a -> a == 0 ->
  nonneg_or_nan (demand_std r) ->
  nonneg_or_nan (current_stock r) ->
  feq (demand_volatility r)
      (if is_positive (demand_std r) then Fin 2 else Fin 0) /\
  feq (days_of_stock r)
      (if is_positive (current_stock r) then Fin 365 else Fin 0).
Proof.
  intros Ea Ha Hs Hc.
  unfold demand_volatility, days_of_stock, filled_stock. rewrite Ea.
  split.
  - destruct (demand_std r) as [x | | |]; simpl in *; try contradiction.
    + destruct (Qcompare_spec a 0) as [E | E | E]; try lra.
      destruct (Qcompare_spec x 0) as [F | F | F]; try lra.
      * assert (L : Qle_bool x 0 = true) by (apply Qle_bool_iff; lra).
        rewrite L. simpl. reflexivity.
      * assert (L : Qle_bool x 0 = false) by (apply Qle_bool_false; lra).
        rewrite L. simpl. reflexivity.
    + reflexivity.
  - destruct (current_stock r) as [x | | |]; simpl in *; try contradiction.
    + destruct (Qcompare_spec a 0) as [E | E | E]; try lra.
      destruct (Qcompare_spec x 0) as [F | F | F]; try lra.
      * assert (L : Qle_bool x 0 = true) by (apply Qle_bool_iff; lra).
        rewrite L. simpl. reflexivity.
      * assert (L : Qle_bool x 0 = false) by (apply Qle_bool_false; lra).
        rewrite L. simpl. reflexivity.
    + destruct (Qcompare_spec a 0) as [E | E | E]; try lra.
      simpl. reflexivity.
Qed.

Lemma zero_demand_ratios_witness :
  feq (demand_volatility sample_idle) (Fin 0) /\
  feq (days_of_stock sample_idle) (Fin 365).
Proof.
  apply (zero_demand_ratios sample_idle 0).
  - reflexivity.
  - reflexivity.
  - simpl. unfold Qle. simpl. lia.
  - simpl. unfold Qle. simpl. lia.
Defined.

(** C7 as stated fails on a product with avg_demand 0 and 50 units in
    stock: days_of_stock is 365, not 0.  With a positive deviation the
    volatility is 2, not 0. *)
Lemma zero_demand_not_zero_ratios :
  avg_demand sample_idle = Fin 0 /\
  feq (days_of_stock sample_idle) (Fin 365) /\
  ~ feq (days_of_stock sample_idle) (Fin 0) /\
  avg_demand sample_erratic = Fin 0 /\
  feq (demand_volatility sample_erratic) (Fin 2) /\
  ~ feq (demand_volatility sample_erratic) (Fin 0).
Proof.
  repeat split; try reflexivity; vm_compute; discriminate.
Qed.

(** ** Daily series and smoothing *)

Lemma date_range_length (start : Z) (n : nat) :
  List.length (date_range start n) = n.
Proof. unfold date_range. rewrite length_map, length_seq. reflexivity. Qed.

Lemma date_range_In (start : Z) (n : nat) (d : Z) :
  In d (date_range start n) <-> (start <= d < start + Z.of_nat n)%Z.
Proof.
  unfold date_range. rewrite in_map_iff. split.
  - intros (i & <- & Hi). apply in_seq in Hi. lia.
  - intros H. exists (Z.to_nat (d - start)). split; [lia |].
    apply in_seq. lia.
Qed.


Lemma fold_max_in (l : list Z) (a : Z) :
  fold_left Z.max l a = a \/ In (fold_left Z.max l a) l.
Proof.
  revert a. induction l as [| y l IH]; intros a; simpl; [tauto |].
  destruct (IH (Z.max a y)) as [E | E]; [| tauto].
  rewrite E. destruct (Z.max_spec a y) as [[_ ->] | [_ ->]]; tauto.
Qed.

Lemma series_max_in (l : list Z) : l <> [] -> In (series_max l) l.
Proof.
  destruct l as [| a l]; [congruence |]. intros _. simpl.
  destruct (fold_max_in l a) as [-> | H]; tauto.
Qed.

Lemma fold_min_le (l : list Z) (a : Z) :
  (fold_left Z.min l a <= a)%Z /\
  forall x, In x l -> (fold_left Z.min l a <= x)%Z.
Proof.
  revert a. induction l as [| y l IH]; intros a; simpl.
  - split; [lia | tauto].
  - destruct (IH (Z.min a y)) as [Ha Hl]. split; [lia |].
    intros x [-> | Hx]; [lia | auto].
Qed.

Lemma series_min_le (l : list Z) (x : Z) :
  In x l -> (series_min l <= x)%Z.
Proof.
  destruct l as [| a l]; simpl; [tauto |].
  destruct (fold_min_le l a) as [Ha Hl].
  intros [<- | Hx]; auto.
Qed.

Lemma series_max_date_range (start : Z) (n : nat) :
  (0 < n)%nat ->
  series_max (date_range start n) = (start + Z.of_nat n - 1)%Z.
Proof.
  intros Hn.
  assert (Hne : date_range start n <> []).
  { intros E. apply (f_equal (@List.length Z)) in E.
    rewrite date_range_length in E. simpl in E. lia. }
  pose proof (series_max_in _ Hne) as Hin.
  apply date_range_In in Hin.
  assert (Hge : (start + Z.of_nat n - 1 <= series_max (date_range start n))%Z).
  { apply series_max_ge, date_range_In. lia. }
  lia.
Qed.

Lemma dates_of_series (f : Z -> Z) (l : list Z) :
  map fst (map (fun d => (d, f d)) l) = l.
Proof.
  rewrite map_map. simpl. apply map_id.
Qed.

(** The series of a product with at least one sale runs from its first
    to its last sale date, one row per day. *)
Lemma daily_demand_shape (l : list sale) :
  l <> [] ->
  exists dd,
    daily_demand l = Some dd /\
    map fst dd =
      date_range (series_min (map sale_date l))
        (Z.to_nat (series_max (map sale_date l)
                   - series_min (map sale_date l) + 1)) /\
    Z.of_nat (List.length dd) =
      (series_max (map sale_date l) - series_min (map sale_date l) + 1)%Z /\
    last_date dd = series_max (map sale_date l).
Proof.
  intros Hne. destruct l as [| s l]; [congruence |].
  eexists. split; [reflexivity |].
  set (L := s :: l).
  assert (Hlo : (series_min (map sale_date L) <= sale_date s)%Z).
  { apply series_min_le. left. reflexivity. }
  assert (Hhi : (sale_date s <= series_max (map sale_date L))%Z).
  { apply series_max_ge. left. reflexivity. }
  split; [apply dates_of_series |]. split.
  - rewrite length_map, date_range_length. lia.
  - unfold last_date. rewrite dates_of_series.
    rewrite series_max_date_range; lia.
Qed.

Lemma daily_demand_none (l : list sale) : daily_demand l = None <-> l = [].
Proof.
  destruct l; simpl; split; congruence.
Qed.









(** ** Forecast rows *)

Lemma forecast_rows_for_length (p : string) (dd : list (Z * Z)) :
  List.length (forecast_rows_for p dd) = 30%nat.
Proof.
  unfold forecast_rows_for. rewrite length_map. apply date_range_length.
Qed.

Lemma forecast_rows_for_product (p : string) (dd : list (Z * Z)) :
  Forall (fun r => fr_product_id r = p) (forecast_rows_for p dd).
Proof.
  unfold forecast_rows_for. rewrite Forall_map.
  apply Forall_forall. intros d _. reflexivity.
Qed.

Lemma forecast_product_rows (p : string) (sales : list sale)
      (rows : list forecast_row) :
  forecast_product p sales = Some rows ->
  Forall (fun r => fr_product_id r = p) rows.
Proof.
  unfold forecast_product.
  destruct (daily_demand (prod_sales p sales)) as [dd |]; [| discriminate].
  destruct (60 <? List.length dd)%nat; intros E; injection E as <-.
  - apply forecast_rows_for_product.
  - constructor.
Qed.




(** ** Sorting *)

Section InsertionSort.

Context {A : Type}.
Variable before : A -> A -> bool.

Hypothesis before_total :
  forall x y, before x y = false -> before y x = true.
Hypothesis before_trans :
  forall x y z, before x y = true -> before y z = true -> before x z = true.

Lemma insert_by_perm (x : A) (l : list A) :
  Permutation (x :: l) (insert_by before x l).
Proof.
  induction l as [| y t IH]; simpl; [reflexivity |].
  destruct (before x y); [reflexivity |].
  rewrite perm_swap. apply perm_skip, IH.
Qed.

Lemma sort_by_perm (l : list A) : Permutation l (sort_by before l).
Proof.
  induction l as [| x l IH]; simpl; [reflexivity |].
  rewrite <- insert_by_perm. apply perm_skip, IH.
Qed.

Lemma insert_by_sorted (x : A) (l : list A) :
  StronglySorted (fun a b => before a b = true) l ->
  StronglySorted (fun a b => before a b = true) (insert_by before x l).
Proof.
  induction 1 as [| y t Hs IH Hy]; simpl.
  - repeat constructor.
  - destruct (before x y) eqn:E.
    + constructor; [constructor; trivial |].
      constructor; [exact E |].
      eapply Forall_impl; [| exact Hy].
      intros z Hz. apply (before_trans x y z); trivial.
    + constructor; trivial.
      apply (Permutation_Forall (insert_by_perm x t)).
      constructor; trivial. apply before_total, E.
Qed.

Lemma sort_by_sorted (l : list A) :
  StronglySorted (fun a b => before a b = true) (sort_by before l).
Proof.
  induction l as [| x l IH]; simpl; [constructor |].
  apply insert_by_sorted, IH.
Qed.

End InsertionSort.


(** ** The selection of products to forecast *)

Lemma In_firstn {A : Type} (n : nat) (l : list A) (x : A) :
  In x (firstn n l) -> In x l.
Proof.
  intros H. rewrite <- (firstn_skipn n l). apply in_or_app. left. exact H.
Qed.

Lemma NoDup_firstn {A : Type} (n : nat) (l : list A) :
  NoDup l -> NoDup (firstn n l).
Proof.
  intros H. revert n. induction H as [| x l Hx Hl IH]; intros n.
  - rewrite firstn_nil. constructor.
  - destruct n as [| n]; simpl; constructor.
    + intros Hin. apply Hx. apply (In_firstn n l x Hin).
    + apply IH.
Qed.

(** The selected products are at most five products of the metrics
    table, each selected once. *)
Lemma top_products_selection (metrics : list product_metric) :
  NoDup (map pm_product_id metrics) ->
  NoDup (top_products metrics) /\
  (List.length (top_products metrics) <= 5)%nat /\
  incl (top_products metrics) (map pm_product_id metrics).
Proof.
  intros Hnd. unfold top_products, nlargest.
  set (sorted := sort_by _ metrics).
  assert (Hp : Permutation metrics sorted) by apply sort_by_perm.
  rewrite <- firstn_map. split; [| split].
  - apply NoDup_firstn.
    apply (Permutation_NoDup (Permutation_map pm_product_id Hp)), Hnd.
  - rewrite length_firstn. lia.
  - intros p Hin. apply In_firstn in Hin.
    apply (Permutation_in p
             (Permutation_sym (Permutation_map pm_product_id Hp))), Hin.
Qed.

(** ** The history check *)

Lemma rows_of_same (p : string) (rows : list forecast_row) :
  Forall (fun r => fr_product_id r = p) rows -> rows_of p rows = rows.
Proof.
  induction 1 as [| r rows Hr _ IH]; simpl; trivial.
  rewrite Hr, String.eqb_refl, IH. reflexivity.
Qed.

Lemma rows_of_other (p : string) (rows : list forecast_row) :
  Forall (fun r => fr_product_id r <> p) rows -> rows_of p rows = [].
Proof.
  induction 1 as [| r rows Hr _ IH]; simpl; trivial.
  apply String.eqb_neq in Hr. rewrite Hr. exact IH.
Qed.

Lemma forecasts_list_products (tops : list string) (sales : list sale) :
  forall out, forecasts_list tops sales = Some out ->
  Forall (fun r => In (fr_product_id r) tops) out.
Proof.
  induction tops as [| p rest IH]; simpl; intros out E.
  - injection E as <-. constructor.
  - destruct (forecast_product p sales) as [rows |] eqn:Ep; [| discriminate].
    destruct (forecasts_list rest sales) as [more |]; [| discriminate].
    injection E as <-. apply Forall_app. split.
    + eapply Forall_impl; [| apply (forecast_product_rows _ _ _ Ep)].
      simpl. intros r ->. left. reflexivity.
    + eapply Forall_impl; [| apply IH; reflexivity].
      simpl. intros r Hr. right. exact Hr.
Qed.

Lemma prod_sales_nonempty (p : string) (sales : list sale) :
  (exists s, In s sales /\ sale_product s = p) -> prod_sales p sales <> [].
Proof.
  intros (s & Hs & Ep) E.
  assert (H : In s (prod_sales p sales)).
  { apply filter_In. split; trivial. apply String.eqb_eq, Ep. }
  rewrite E in H. destruct H.
Qed.

(** The loop over distinct products that each have a sale completes;
    a product whose dense daily series has more than 60 days
    contributes 30 rows, and one with 60 days or fewer none. *)
Lemma forecasts_list_per_product (tops : list string) (sales : list sale) :
  NoDup tops ->
  (forall p, In p tops -> exists s, In s sales /\ sale_product s = p) ->
  exists out,
    forecasts_list tops sales = Some out /\
    forall p, In p tops ->
      exists dd,
        daily_demand (prod_sales p sales) = Some dd /\
        List.length (rows_of p out) =
          if (60 <? List.length dd)%nat then 30%nat else 0%nat.
Proof.
  induction tops as [| q rest IH]; intros Hnd Hs.
  - exists []. split; [reflexivity |]. intros p [].
  - inversion Hnd as [| ? ? Hq Hrest]; subst.
    destruct IH as (more & Emore & Hmore); trivial.
    { intros p Hp. apply Hs. right. exact Hp. }
    destruct (daily_demand_shape (prod_sales q sales)) as (dq & Edq & _).
    { apply prod_sales_nonempty, Hs. left. reflexivity. }
    assert (Eq : exists rows, forecast_product q sales = Some rows /\
              List.length rows
              = if (60 <? List.length dq)%nat then 30%nat else 0%nat).
    { unfold forecast_product. rewrite Edq.
      destruct (60 <? List.length dq)%nat; eexists; split; reflexivity. }
    destruct Eq as (rows & Erows & Hlen).
    exists (rows ++ more). split.
    { simpl. rewrite Erows, Emore. reflexivity. }
    pose proof (forecast_product_rows _ _ _ Erows) as Hrows.
    pose proof (forecasts_list_products _ _ _ Emore) as Hprod.
    intros p [<- | Hp].
    + exists dq. split; trivial.
      unfold rows_of. rewrite filter_app. fold (rows_of q rows).
      fold (rows_of q more). rewrite rows_of_same by exact Hrows.
      rewrite rows_of_other, app_nil_r; trivial.
      eapply Forall_impl; [| exact Hprod]. simpl. intros r Hr E.
      rewrite E in Hr. contradiction.
    + destruct (Hmore p Hp) as (dd & Edd & Hdd).
      exists dd. split; trivial.
      unfold rows_of. rewrite filter_app. fold (rows_of p rows).
      fold (rows_of p more). rewrite rows_of_other; trivial.
      eapply Forall_impl; [| exact Hrows]. simpl. intros r -> E.
      subst. contradiction.
Qed.

(** C8, with the threshold the code has: with one metrics row per
    product and a sale for each selected product, the forecasting loop
    over the top-5 selection completes; a selected product whose dense
    daily series has more than 60 days contributes 30 rows, and one
    with 60 days or fewer is skipped and contributes none. *)
Theorem history_threshold
  (metrics : list product_metric) (sales : list sale) :
  NoDup (map pm_product_id metrics) ->
  (forall p, In p (top_products metrics) ->
     exists s, In s sales /\ sale_product s = p) ->
  exists out,
    forecasts_list (top_products metrics) sales = Some out /\
    forall p, In p (top_products metrics) ->
      exists dd,
        daily_demand (prod_sales p sales) = Some dd /\
        List.length (rows_of p out) =
          if (60 <? List.length dd)%nat then 30%nat else 0%nat.
Proof.
  intros Hnd Hs.
  apply forecasts_list_per_product; trivial.
  apply top_products_selection, Hnd.
Qed.

Lemma history_threshold_witness :
  exists out,
    forecasts_list (top_products sample_product_metrics) sample_sales
      = Some out /\
    forall p, In p (top_products sample_product_metrics) ->
      exists dd,
        daily_demand (prod_sales p sample_sales) = Some dd /\
        List.length (rows_of p out) =
          if (60 <? List.length dd)%nat then 30%nat else 0%nat.
Proof.
  apply (history_threshold sample_product_metrics sample_sales).
  - repeat constructor; simpl; intuition discriminate.
  - intros p Hp. vm_compute in Hp. destruct Hp as [<- | [<- | []]].
    + exists (mkSale "TRX000001" 0 "P0001" "W01" 1 1).
      split; [simpl; tauto | reflexivity].
    + exists (mkSale "TRX000004" 10 "P0002" "W01" 7 7).
      split; [simpl; tauto | reflexivity].
Defined.

(** C8 as stated fails at the threshold itself: the second product of
    the sample is selected and has a dense series of exactly 60 days,
    which is at least 60, and gets no forecast row. *)
Lemma sixty_days_is_skipped :
  exists dd,
    In "P0002"%string (top_products sample_product_metrics) /\
    daily_demand (prod_sales "P0002" sample_sales) = Some dd /\
    List.length dd = 60%nat /\
    forecast_product "P0002" sample_sales = Some [] /\
    exists out,
      forecasts_list (top_products sample_product_metrics) sample_sales
        = Some out /\
      rows_of "P0002" out = [].
Proof.
  eexists. split; [vm_compute; tauto |].
  split; [reflexivity |]. split; [reflexivity |].
  split; [reflexivity |].
  eexists. split; reflexivity.
Qed.

(** ** Square roots *)

Open Scope R_scope.

Lemma Q2R_inject_Z (z : Z) : Q2R (inject_Z z) = IZR z.
Proof. unfold Q2R. simpl. lra. Qed.

Lemma Q2R_nonneg (q : Q) : (0 <= q)%Q -> 0 <= Q2R q.
Proof.
  intros H. apply Qle_Rle in H. rewrite RMicromega.Q2R_0 in H. exact H.
Qed.

(** Twice the root lies between [s] and [s + 1]. *)
Lemma twice_sqrt_bounds (q : Q) :
  (0 <= q)%Q ->
  let s := Z.sqrt (Qfloor (4 * q)) in
  IZR s <= 2 * sqrt (Q2R q) < IZR s + 1.
Proof.
  intros Hq s.
  pose proof (Q2R_nonneg q Hq) as Hq0.
  pose proof (sqrt_pos (Q2R q)) as Hy.
  pose proof (sqrt_sqrt (Q2R q) Hq0) as Hyy.
  assert (Hn : (0 <= Qfloor (4 * q))%Z).
  { rewrite <- (Qfloor_Z 0). apply Qfloor_resp_le.
    change (inject_Z 0) with 0%Q. lra. }
  destruct (Z.sqrt_spec _ Hn) as [Hs1 Hs2]. fold s in Hs1, Hs2.
  pose proof (Z.sqrt_nonneg (Qfloor (4 * q))) as Hs0. fold s in Hs0.
  destruct (floor_bounds (4 * q)) as [Hf1 Hf2].
  apply Qle_Rle in Hf1. apply Qlt_Rlt in Hf2.
  rewrite Q2R_plus, RMicromega.Q2R_1 in Hf2.
  rewrite Q2R_inject_Z in Hf1, Hf2. rewrite Q2R_mult in Hf1, Hf2.
  replace (Q2R 4) with 4 in Hf1, Hf2 by (unfold Q2R; simpl; lra).
  apply IZR_le in Hs1, Hs0. rewrite mult_IZR in Hs1.
  assert (Hs3 : IZR (Qfloor (4 * q)) + 1 <= (IZR s + 1) * (IZR s + 1)).
  { rewrite <- !plus_IZR, <- mult_IZR. apply IZR_le. lia. }
  set (y := sqrt (Q2R q)) in *. set (t := IZR s) in *.
  split; nra.
Qed.

(** [round_sqrt] is a nearest integer to the real square root. *)
Lemma round_sqrt_near (q : Q) :
  (0 <= q)%Q -> Rabs (IZR (round_sqrt q) - sqrt (Q2R q)) <= 1 / 2.
Proof.
  intros Hq. pose proof (twice_sqrt_bounds q Hq) as Hb. cbv zeta in Hb.
  unfold round_sqrt.
  set (s := Z.sqrt (Qfloor (4 * q))) in *.
  pose proof (Z.div_mod s 2 ltac:(lia)) as Hdm.
  destruct (Z.odd s && Qeq_bool (4 * q) (inject_Z (s * s))) eqn:Etie.
  - apply andb_prop in Etie. destruct Etie as [Hodd Heq].
    rewrite Zmod_odd, Hodd in Hdm.
    apply Qeq_bool_eq, Qeq_eqR in Heq.
    rewrite Q2R_mult, Q2R_inject_Z, mult_IZR in Heq.
    replace (Q2R 4) with 4 in Heq by (unfold Q2R; simpl; lra).
    pose proof (Q2R_nonneg q Hq) as Hq0.
    pose proof (sqrt_pos (Q2R q)) as Hy.
    pose proof (sqrt_sqrt (Q2R q) Hq0) as Hyy.
    assert (Hs0 : 0 <= IZR s) by (apply IZR_le, Z.sqrt_nonneg).
    assert (Ey : 2 * sqrt (Q2R q) = IZR s) by nra.
    apply (f_equal IZR) in Hdm. rewrite plus_IZR, mult_IZR in Hdm.
    destruct (Z.even (s / 2)); [| rewrite plus_IZR];
      apply Rabs_le; lra.
  - pose proof (Z.div_mod (s + 1) 2 ltac:(lia)) as Hd.
    pose proof (Z.mod_pos_bound (s + 1) 2 ltac:(lia)) as Hm.
    assert (Hc : (s = 2 * ((s + 1) / 2) - 1 \/ s = 2 * ((s + 1) / 2))%Z)
      by lia.
    destruct Hc as [Hc | Hc]; apply (f_equal IZR) in Hc;
      rewrite ?minus_IZR, mult_IZR in Hc; apply Rabs_le; lra.
Qed.

Lemma round_sqrt_nonneg (q : Q) : (0 <= round_sqrt q)%Z.
Proof.
  unfold round_sqrt.
  set (s := Z.sqrt (Qfloor (4 * q))).
  pose proof (Z.sqrt_nonneg (Qfloor (4 * q))) as Hs. fold s in Hs.
  destruct (Z.odd s && Qeq_bool (4 * q) (inject_Z (s * s))).
  - assert (0 <= s / 2)%Z by (apply Z.div_pos; lia).
    destruct (Z.even (s / 2)); lia.
  - apply Z.div_pos; lia.
Qed.


Close Scope R_scope.

(** ** Order quantity, safety stock and reorder point *)

Lemma round_half_even_comp (x y : Q) :
  x == y -> round_half_even x = round_half_even y.
Proof.
  intros E. unfold round_half_even.
  rewrite (Qfloor_comp _ _ E).
  assert (E' : x - inject_Z (Qfloor y) == y - inject_Z (Qfloor y))
    by (rewrite E; reflexivity).
  rewrite (Qcompare_comp _ _ E' (1 # 2) (1 # 2) (Qeq_refl _)).
  reflexivity.
Qed.

Lemma round_sqrt_comp (x y : Q) : x == y -> round_sqrt x = round_sqrt y.
Proof.
  intros E. unfold round_sqrt.
  assert (E4 : 4 * x == 4 * y) by (rewrite E; reflexivity).
  rewrite (Qfloor_comp _ _ E4).
  rewrite (Qeqb_comp _ _ E4 _ _ (Qeq_refl _)).
  reflexivity.
Qed.

Lemma astype_round0 (q : Q) :
  astype_int (fround 0 (Fin q)) = Some (round_half_even q).
Proof.
  unfold fround, round_dec, astype_int. f_equal.
  assert (E : q * pow10 0 == q) by (unfold pow10; simpl; ring).
  rewrite (round_half_even_comp _ _ E).
  unfold pow10. simpl. rewrite Z.mul_1_r. apply Z.quot_1_r.
Qed.

Lemma sqrt_round_int_fin (x : Q) :
  0 <= x -> sqrt_round_int (Fin x) = Some (round_sqrt x).
Proof.
  intros H. unfold sqrt_round_int, scaled_sqrt_round_int.
  apply Qle_bool_iff in H. rewrite H. f_equal.
  unfold round_scaled_sqrt. simpl.
  apply round_sqrt_comp. ring.
Qed.

Lemma eoq_fin (d h : Q) :
  0 <= d -> 0 < h ->
  eoq (Fin d) (Fin h) = Some (round_sqrt (2 * d * ordering_cost / h)).
Proof.
  intros Hd Hh. unfold eoq. simpl fmul. rewrite fdiv_fin_pos by trivial.
  apply sqrt_round_int_fin. apply Qdiv_nonneg; trivial.
  unfold ordering_cost. nra.
Qed.

Lemma optimal_order_quantity_fin (r : reorder_input) (a c : Q) :
  avg_demand (ro_risk r) = Fin a -> unit_cost r = Fin c ->
  0 <= a -> 0 < c ->
  optimal_order_quantity r =
    Some (round_sqrt (2 * (a * 365) * ordering_cost
                      / (c * holding_cost_rate))).
Proof.
  intros Ea Ec Ha Hc.
  unfold optimal_order_quantity, annual_demand, holding_cost.
  rewrite Ea, Ec. simpl fmul. apply eoq_fin.
  - nra.
  - unfold holding_cost_rate. nra.
Qed.

(** A zero holding cost is not guarded: whatever the annual demand, the
    quotient is infinite or NaN and the integer conversion fails. *)
Lemma eoq_zero_holding_cost (annual : float64) : eoq annual (Fin 0) = None.
Proof.
  unfold eoq. unfold ordering_cost.
  destruct annual as [d | | |]; simpl; trivial.
  destruct (Qcompare (2 * d * 100) 0); reflexivity.
Qed.

Open Scope R_scope.

Lemma Rabs_le_between (a b : R) : Rabs a <= b -> - b <= a <= b.
Proof.
  unfold Rabs. destruct (Rcase_abs a); intros H; lra.
Qed.

Lemma sqrt2_bounds : 1 < sqrt 2 /\ sqrt 2 * sqrt 2 = 2.
Proof.
  pose proof (sqrt_pos 2) as Hp.
  pose proof (sqrt_sqrt 2 ltac:(lra)) as Hs.
  split; [nra | exact Hs].
Qed.

(** Two integers within one half of [x] and of [sqrt 2 * x]. *)
Lemma near_sqrt2_multiple (e1 e2 : Z) (x : R) :
  Rabs (IZR e1 - x) <= 1 / 2 ->
  Rabs (IZR e2 - sqrt 2 * x) <= 1 / 2 ->
  (0 <= e1)%Z -> (0 <= e2)%Z ->
  Rabs (IZR e2 - sqrt 2 * IZR e1) <= (1 + sqrt 2) / 2 /\ (e1 <= e2)%Z.
Proof.
  intros H1 H2 N1 N2.
  destruct sqrt2_bounds as [Hw Hww].
  apply Rabs_le_between in H1. apply Rabs_le_between in H2.
  set (w := sqrt 2) in *.
  assert (Hb : - ((1 + w) / 2) <= IZR e2 - w * IZR e1 <= (1 + w) / 2).
  { split; nra. }
  split; [apply Rabs_le, Hb |].
  destruct (Z.eq_dec e1 0) as [-> | Hne]; trivial.
  assert (H1' : 1 <= IZR e1) by (apply IZR_le; lia).
  assert (Hgt : IZR e1 - 1 < IZR e2) by nra.
  rewrite <- minus_IZR in Hgt. apply lt_IZR in Hgt. lia.
Qed.

(** C4: the order quantity is a nearest integer to
    sqrt(2 * annual_demand * 100 / (unit_cost * 0.25)), and on doubling
    the average (hence the annual) demand of a row, everything else
    fixed, the new quantity is within (1 + sqrt 2)/2 of sqrt 2 times
    the old one, the slack of the two roundings, and is not smaller. *)
Theorem eoq_doubling (r : reorder_input) (a c : Q) :
  avg_demand (ro_risk r) = Fin a -> unit_cost r = Fin c ->
  (0 <= a)%Q -> (0 < c)%Q ->
  exists e1 e2 : Z,
    optimal_order_quantity r = Some e1 /\
    optimal_order_quantity (with_avg_demand (Fin (2 * a)) r) = Some e2 /\
    feq (annual_demand (with_avg_demand (Fin (2 * a)) r))
        (fmul (Fin 2) (annual_demand r)) /\
    Rabs (IZR e1
          - sqrt (2 * (Q2R a * 365) * 100 / (Q2R c * (25 / 100))))
      <= 1 / 2 /\
    Rabs (IZR e2 - sqrt 2 * IZR e1) <= (1 + sqrt 2) / 2 /\
    (e1 <= e2)%Z.
Proof.
  intros Ea Ec Ha Hc.
  pose proof (optimal_order_quantity_fin r a c Ea Ec Ha Hc) as E1.
  assert (E2 : optimal_order_quantity (with_avg_demand (Fin (2 * a)) r) =
    Some (round_sqrt (2 * (2 * a * 365) * ordering_cost
                      / (c * holding_cost_rate)))).
  { apply optimal_order_quantity_fin; simpl; trivial. nra. }
  set (X := (2 * (a * 365) * ordering_cost / (c * holding_cost_rate))%Q)
    in *.
  assert (HX : (0 <= X)%Q).
  { apply Qdiv_nonneg; unfold ordering_cost, holding_cost_rate; nra. }
  assert (E2' : round_sqrt (2 * (2 * a * 365) * ordering_cost
                            / (c * holding_cost_rate))
                = round_sqrt (2 * X)).
  { apply round_sqrt_comp. unfold X, holding_cost_rate. field.
    intros F. nra. }
  rewrite E2' in E2.
  assert (RX : Q2R X = 2 * (Q2R a * 365) * 100 / (Q2R c * (25 / 100))).
  { unfold X, ordering_cost, holding_cost_rate.
    rewrite Q2R_div by (intros F; nra).
    rewrite !Q2R_mult.
    replace (Q2R 2) with 2 by (unfold Q2R; simpl; lra).
    replace (Q2R 365) with 365 by (unfold Q2R; simpl; lra).
    replace (Q2R 100) with 100 by (unfold Q2R; simpl; lra).
    replace (Q2R 0.25) with (25 / 100) by (unfold Q2R; simpl; lra).
    reflexivity. }
  pose proof (round_sqrt_near X HX) as N1.
  assert (H2X : (0 <= 2 * X)%Q) by nra.
  pose proof (round_sqrt_near (2 * X)%Q H2X) as N2.
  rewrite Q2R_mult in N2.
  replace (Q2R 2) with 2 in N2 by (unfold Q2R; simpl; lra).
  rewrite sqrt_mult in N2 by (try lra; apply Q2R_nonneg, HX).
  destruct (near_sqrt2_multiple _ _ _ N1 N2
              (round_sqrt_nonneg _) (round_sqrt_nonneg _)) as [B M].
  exists (round_sqrt X), (round_sqrt (2 * X)%Q).
  split; [exact E1 |]. split; [exact E2 |]. split.
  { unfold annual_demand. simpl. rewrite Ea. simpl. ring. }
  rewrite <- RX. auto.
Qed.

Lemma eoq_doubling_witness :
  exists e1 e2 : Z,
    optimal_order_quantity sample_reorder = Some e1 /\
    optimal_order_quantity (with_avg_demand (Fin (2 * 10)) sample_reorder)
      = Some e2 /\
    feq (annual_demand (with_avg_demand (Fin (2 * 10)) sample_reorder))
        (fmul (Fin 2) (annual_demand sample_reorder)) /\
    Rabs (IZR e1
          - sqrt (2 * (Q2R 10 * 365) * 100 / (Q2R 20 * (25 / 100))))
      <= 1 / 2 /\
    Rabs (IZR e2 - sqrt 2 * IZR e1) <= (1 + sqrt 2) / 2 /\
    (e1 <= e2)%Z.
Proof.
  apply (eoq_doubling sample_reorder 10 20).
  - reflexivity.
  - reflexivity.
  - unfold Qle. simpl. lia.
  - unfold Qlt. simpl. lia.
Defined.

Example sample_eoq :
  optimal_order_quantity sample_reorder = Some 382%Z /\
  optimal_order_quantity (with_avg_demand (Fin 20) sample_reorder)
    = Some 540%Z.
Proof. split; vm_compute; reflexivity. Qed.

Close Scope R_scope.




Example sample_safety_stock :
  safety_stock sample_reorder = Some 50%Z /\
  optimal_reorder_point sample_reorder = Some 140%Z.
Proof. split; vm_compute; reflexivity. Qed.

(** ** Unguarded ratios *)

Lemma fround_finite (d : nat) (x : float64) :
  is_finite (fround d x) = is_finite x.
Proof. destruct x; reflexivity. Qed.

(** An ordered quantity of 0 is not guarded: the rate is infinite or
    NaN. *)
Lemma fulfillment_rate_zero_ordered (id p w : string) (d f : Z) :
  is_finite (fulfillment_rate (mkSale id d p w 0 f)) = false.
Proof.
  unfold fulfillment_rate. rewrite fround_finite. simpl.
  destruct (Qcompare (inject_Z f) 0); reflexivity.
Qed.

Lemma fulfillment_rate_unit (s : sale) :
  (1 <= quantity_ordered s)%Z ->
  (0 <= quantity_fulfilled s <= quantity_ordered s)%Z ->
  exists q, fulfillment_rate s = Fin q /\ 0 <= q <= 1.
Proof.
  intros Ho [Hf0 Hf1]. unfold fulfillment_rate, of_int.
  assert (Hp : 0 < inject_Z (quantity_ordered s)).
  { change 0 with (inject_Z 0). rewrite <- Zlt_Qlt. lia. }
  assert (Hn : 0 <= inject_Z (quantity_fulfilled s)).
  { change 0 with (inject_Z 0). rewrite <- Zle_Qle. exact Hf0. }
  assert (Hle : inject_Z (quantity_fulfilled s)
                <= inject_Z (quantity_ordered s)).
  { rewrite <- Zle_Qle. exact Hf1. }
  rewrite fdiv_fin_pos by exact Hp. simpl.
  eexists. split; [reflexivity |].
  apply round_dec_unit. split.
  - apply Qdiv_nonneg; trivial.
  - apply Qdiv_le_1; trivial.
Qed.

(** C9, as the code has it: neither ratio is guarded.  The fulfilment
    rate is a number between 0 and 1 on a row with
    1 <= quantity_ordered and 0 <= quantity_fulfilled <=
    quantity_ordered, and the order quantity is defined for a product
    with a positive unit cost and a non-negative average demand; with
    quantity_ordered = 0 the rate is infinite or NaN, and with a zero
    holding cost the integer conversion of the order quantity fails. *)
Theorem ratios_defined_off_zero
  (s : sale) (r : reorder_input) (a c : Q) :
  (1 <= quantity_ordered s)%Z ->
  (0 <= quantity_fulfilled s <= quantity_ordered s)%Z ->
  avg_demand (ro_risk r) = Fin a -> unit_cost r = Fin c ->
  0 <= a -> 0 < c ->
  (exists q, fulfillment_rate s = Fin q /\ 0 <= q <= 1) /\
  (exists e, optimal_order_quantity r = Some e) /\
  (forall id p w d f,
     is_finite (fulfillment_rate (mkSale id d p w 0 f)) = false) /\
  (forall annual, eoq annual (Fin 0) = None).
Proof.
  intros Ho Hf Ea Ec Ha Hc. split; [| split; [| split]].
  - apply fulfillment_rate_unit; trivial.
  - eexists. apply (optimal_order_quantity_fin r a c); trivial.
  - intros. apply fulfillment_rate_zero_ordered.
  - apply eoq_zero_holding_cost.
Qed.

Lemma ratios_defined_off_zero_witness :
  (exists q,
     fulfillment_rate (mkSale "TRX000005" 69 "P0002" "W01" 9 4) = Fin q /\
     0 <= q <= 1) /\
  (exists e, optimal_order_quantity sample_reorder = Some e) /\
  (forall id p w d f,
     is_finite (fulfillment_rate (mkSale id d p w 0 f)) = false) /\
  (forall annual, eoq annual (Fin 0) = None).
Proof.
  apply (ratios_defined_off_zero
           (mkSale "TRX000005" 69 "P0002" "W01" 9 4) sample_reorder 10 20).
  - simpl. lia.
  - simpl. lia.
  - reflexivity.
  - reflexivity.
  - unfold Qle. simpl. lia.
  - unfold Qlt. simpl. lia.
Defined.

(** C9 as stated fails on a product with unit cost 0 and a positive
    lead time, selling 10 units a day: the holding cost is 0 and the
    order quantity has no value.  A sale row with nothing ordered has a
    NaN fulfilment rate. *)
Lemma unguarded_ratios :
  unit_cost sample_free = Fin 0 /\
  (0 < lead_time_days (ro_risk sample_free))%Z /\
  feq (holding_cost sample_free) (Fin 0) /\
  optimal_order_quantity sample_free = None /\
  fulfillment_rate (mkSale "TRX000009" 3 "P0001" "W01" 0 0) = NaN.
Proof.
  repeat split; reflexivity.
Qed.

(** ** Deduplication and joins *)

Lemma drop_duplicates_from_keys {A : Type} (key : A -> string)
      (l : list A) (seen : list string) :
  NoDup (map key (drop_duplicates_from key seen l)) /\
  forall x, In x (drop_duplicates_from key seen l) -> ~ In (key x) seen.
Proof.
  revert seen. induction l as [| a l IH]; intros seen; simpl.
  - split; [constructor | tauto].
  - destruct (existsb (String.eqb (key a)) seen) eqn:E.
    + apply IH.
    + destruct (IH (key a :: seen)) as [Hnd Hout]. split.
      * simpl. constructor; trivial.
        intros Hin. apply in_map_iff in Hin. destruct Hin as (x & Ex & Hx).
        apply (Hout x Hx). left. symmetry. exact Ex.
      * intros x [<- | Hx].
        -- intros Hin.
           assert (T : existsb (String.eqb (key a)) seen = true).
           { apply existsb_exists. exists (key a).
             split; trivial. apply String.eqb_refl. }
           congruence.
        -- intros Hin. apply (Hout x Hx). right. exact Hin.
Qed.

(** No key is left twice. *)
Lemma drop_duplicates_NoDup {A : Type} (key : A -> string) (l : list A) :
  NoDup (map key (drop_duplicates key l)).
Proof. apply drop_duplicates_from_keys. Qed.

Lemma drop_duplicates_from_find {A : Type} (key : A -> string)
      (l : list A) (seen : list string) (k : string) :
  find (has_key key k) (drop_duplicates_from key seen l) =
    if existsb (String.eqb k) seen then None else find (has_key key k) l.
Proof.
  revert seen. induction l as [| a l IH]; intros seen; simpl.
  - destruct (existsb (String.eqb k) seen); reflexivity.
  - unfold has_key at 2. destruct (String.eqb_spec (key a) k) as [E | NE].
    + subst k. destruct (existsb (String.eqb (key a)) seen) eqn:Es.
      * rewrite IH, Es. reflexivity.
      * simpl. unfold has_key at 1. rewrite String.eqb_refl. reflexivity.
    + destruct (existsb (String.eqb (key a)) seen) eqn:Es.
      * apply IH.
      * simpl. unfold has_key at 1.
        destruct (String.eqb_spec (key a) k) as [E | _]; [congruence |].
        rewrite IH. simpl.
        destruct (String.eqb_spec k (key a)) as [E | _]; [congruence |].
        reflexivity.
Qed.

(** The row kept for a key is the first raw row with that key, and a
    key of the raw table is never lost. *)
Lemma drop_duplicates_first {A : Type} (key : A -> string) (l : list A)
      (k : string) :
  find (has_key key k) (drop_duplicates key l) = find (has_key key k) l.
Proof. apply (drop_duplicates_from_find key l [] k). Qed.

Lemma drop_duplicates_from_incl {A : Type} (key : A -> string)
      (l : list A) (seen : list string) :
  incl (drop_duplicates_from key seen l) l.
Proof.
  revert seen. induction l as [| a l IH]; intros seen; simpl.
  - apply incl_refl.
  - destruct (existsb (String.eqb (key a)) seen).
    + apply incl_tl, IH.
    + apply incl_cons; [left; reflexivity |]. apply incl_tl, IH.
Qed.

(** A left join against a table with distinct keys neither repeats nor
    drops a left row. *)
Lemma merge_left_rows {L R : Type} (lkey : L -> string) (rkey : R -> string)
      (left : list L) (right : list R) :
  NoDup (map rkey right) ->
  map fst (merge_left lkey rkey left right) = left.
Proof.
  intros Hnd. unfold merge_left.
  induction left as [| l left IH]; [reflexivity |].
  cbn [flat_map]. rewrite map_app, IH. clear IH.
  assert (H : forall k, (List.length
            (filter (fun r => String.eqb (rkey r) k) right) <= 1)%nat).
  { intros k. clear l. induction right as [| r right IHr]; simpl; [lia |].
    inversion Hnd as [| ? ? Hr Hrest]; subst.
    destruct (String.eqb_spec (rkey r) k) as [E | NE]; [| auto].
    simpl. destruct (filter (fun r0 => String.eqb (rkey r0) k) right)
      as [| r' rs] eqn:F; simpl; [lia |].
    exfalso. apply Hr.
    assert (Hin : In r' (filter (fun r0 => String.eqb (rkey r0) k) right))
      by (rewrite F; left; reflexivity).
    apply filter_In in Hin. destruct Hin as [Hin Hk].
    apply String.eqb_eq in Hk. rewrite E, <- Hk. apply in_map, Hin. }
  specialize (H (lkey l)).
  destruct (filter (fun r => String.eqb (rkey r) (lkey l)) right)
    as [| r [| r' rs]]; simpl in *; trivial; lia.
Qed.

Lemma enriched_sales_rows (raw : list sale) (products : list product) :
  NoDup (map product_id products) ->
  map sale_of (enriched_sales raw products) = clean_sales raw.
Proof. apply merge_left_rows. Qed.

Lemma enriched_orders_rows (raw : list supply_order)
      (suppliers : list supplier) (products : list product) :
  NoDup (map supplier_id suppliers) ->
  NoDup (map product_id products) ->
  map order_of (enriched_orders raw suppliers products) = clean_orders raw.
Proof.
  intros Hs Hp. unfold enriched_orders, order_of.
  rewrite <- (merge_left_rows order_supplier supplier_id
                (clean_orders raw) suppliers Hs) at 2.
  rewrite <- (merge_left_rows (fun e => order_product (fst e)) product_id
                (merge_left order_supplier supplier_id
                   (clean_orders raw) suppliers) products Hp) at 2.
  rewrite <- (merge_left_rows
                (fun e => order_product (fst (fst e))) product_id
                (merge_left (fun e => order_product (fst e)) product_id
                   (merge_left order_supplier supplier_id
                      (clean_orders raw) suppliers) products)
                products Hp) at 2.
  rewrite !map_map. reflexivity.
Qed.

Lemma filter_map_swap {A B : Type} (f : A -> B) (p : B -> bool)
      (l : list A) :
  filter p (map f l) = map f (filter (fun x => p (f x)) l).
Proof.
  induction l as [| a l IH]; simpl; trivial.
  destruct (p (f a)); simpl; rewrite IH; reflexivity.
Qed.

(** C10: cleaning keeps, for every transaction_id and every order_id,
    the first raw row with that key and nothing else with it; with
    distinct keys in the product and supplier tables the joins keep the
    cleaned rows one for one, so every key occurs at most once in the
    enriched tables, and the per-product and per-warehouse transaction
    counts and the per-supplier order count are counts of cleaned
    rows. *)
Theorem duplicates_dropped_before_enrichment
  (raw_sales : list sale) (raw_orders : list supply_order)
  (products : list product) (suppliers : list supplier) :
  NoDup (map product_id products) ->
  NoDup (map supplier_id suppliers) ->
  (forall k, find (has_key transaction_id k) (clean_sales raw_sales)
             = find (has_key transaction_id k) raw_sales) /\
  (forall k, find (has_key order_id k) (clean_orders raw_orders)
             = find (has_key order_id k) raw_orders) /\
  NoDup (map (fun e => transaction_id (sale_of e))
             (enriched_sales raw_sales products)) /\
  NoDup (map (fun e => order_id (order_of e))
             (enriched_orders raw_orders suppliers products)) /\
  (forall p, transaction_count_of p (enriched_sales raw_sales products)
             = List.length
                 (filter (fun s => String.eqb (sale_product s) p)
                         (clean_sales raw_sales))) /\
  (forall w,
     warehouse_transaction_count_of w (enriched_sales raw_sales products)
     = List.length
         (filter (fun s => String.eqb (sale_warehouse s) w)
                 (clean_sales raw_sales))) /\
  (forall sup,
     total_orders_of sup (enriched_orders raw_orders suppliers products)
     = List.length
         (filter (fun o => String.eqb (order_supplier o) sup)
                 (clean_orders raw_orders))).
Proof.
  intros Hp Hs.
  pose proof (enriched_sales_rows raw_sales products Hp) as Es.
  pose proof (enriched_orders_rows raw_orders suppliers products Hs Hp)
    as Eo.
  split; [intros k; apply drop_duplicates_first |].
  split; [intros k; apply drop_duplicates_first |].
  split.
  { rewrite <- (map_map sale_of transaction_id), Es.
    apply drop_duplicates_NoDup. }
  split.
  { rewrite <- (map_map order_of order_id), Eo.
    apply drop_duplicates_NoDup. }
  split.
  { intros p. unfold transaction_count_of.
    rewrite <- Es, filter_map_swap, length_map. reflexivity. }
  split.
  - intros w. unfold warehouse_transaction_count_of.
    rewrite <- Es, filter_map_swap, length_map. reflexivity.
  - intros sup. unfold total_orders_of.
    rewrite <- Eo, filter_map_swap, length_map. reflexivity.
Qed.

Lemma duplicates_dropped_before_enrichment_witness :
  (forall k, find (has_key transaction_id k) (clean_sales sample_raw_sales)
             = find (has_key transaction_id k) sample_raw_sales) /\
  (forall k, find (has_key order_id k) (clean_orders sample_raw_orders)
             = find (has_key order_id k) sample_raw_orders) /\
  NoDup (map (fun e => transaction_id (sale_of e))
             (enriched_sales sample_raw_sales sample_products)) /\
  NoDup (map (fun e => order_id (order_of e))
             (enriched_orders sample_raw_orders sample_suppliers
                sample_products)) /\
  (forall p,
     transaction_count_of p (enriched_sales sample_raw_sales sample_products)
     = List.length
         (filter (fun s => String.eqb (sale_product s) p)
                 (clean_sales sample_raw_sales))) /\
  (forall w,
     warehouse_transaction_count_of w
       (enriched_sales sample_raw_sales sample_products)
     = List.length
         (filter (fun s => String.eqb (sale_warehouse s) w)
                 (clean_sales sample_raw_sales))) /\
  (forall sup,
     total_orders_of sup
       (enriched_orders sample_raw_orders sample_suppliers sample_products)
     = List.length
         (filter (fun o => String.eqb (order_supplier o) sup)
                 (clean_orders sample_raw_orders))).
Proof.
  apply (duplicates_dropped_before_enrichment
           sample_raw_sales sample_raw_orders
           sample_products sample_suppliers).
  - repeat constructor; simpl; intuition discriminate.
  - repeat constructor; simpl; intuition discriminate.
Defined.

(** The product table is not cleaned: were a product listed twice,
    the join would repeat its sales.  The data model rules this out. *)
Example repeated_product_repeats_sales :
  transaction_count_of "P0001"
    (enriched_sales sample_raw_sales
       (mkProduct "P0001" "Item_1" "Food" (Fin 20) 9 (Fin 30)
        :: sample_products)) = 4%nat.
Proof. reflexivity. Qed.

Example sample_cleaning :
  map quantity_ordered (clean_sales sample_raw_sales) = [5; 7; 3]%Z /\
  transaction_count_of "P0002"
    (enriched_sales sample_raw_sales sample_products) = 1%nat /\
  total_orders_of "S001"
    (enriched_orders sample_raw_orders sample_suppliers sample_products)
    = 1%nat.
Proof. repeat split; reflexivity. Qed.

(** ** Order on cells *)

Lemma fle_bool_trans (a b c : float64) :
  fle_bool a b = true -> fle_bool b c = true -> fle_bool a c = true.
Proof.
  destruct a as [x | | |], b as [y | | |], c as [z | | |]; simpl;
    trivial; try discriminate.
  rewrite !Qle_bool_iff. apply Qle_trans.
Qed.

Lemma fle_bool_total (a b : float64) :
  is_nan a = false -> is_nan b = false ->
  fle_bool a b = false -> fle_bool b a = true.
Proof.
  destruct a as [x | | |], b as [y | | |]; simpl;
    trivial; try discriminate.
  intros _ _ H. apply Qle_bool_false in H.
  apply Qle_bool_iff. lra.
Qed.

Lemma fle_bool_not_nan (a b : float64) :
  fle_bool a b = true -> is_nan a = false /\ is_nan b = false.
Proof.
  destruct a, b; simpl; auto; discriminate.
Qed.

Lemma desc_before_total (a b : float64) :
  desc_before a b = false -> desc_before b a = true.
Proof.
  unfold desc_before. intros H.
  apply orb_false_iff in H. destruct H as [Hb Hba].
  destruct (is_nan a) eqn:Ha; simpl; trivial.
  apply fle_bool_total; trivial.
Qed.

Lemma desc_before_trans (a b c : float64) :
  desc_before a b = true -> desc_before b c = true ->
  desc_before a c = true.
Proof.
  unfold desc_before. intros Hab Hbc.
  destruct (is_nan c) eqn:Hc; simpl in *; trivial.
  destruct (fle_bool_not_nan _ _ Hbc) as [_ Hb].
  rewrite Hb in Hab. simpl in Hab.
  apply (fle_bool_trans c b a); trivial.
Qed.


(** The stable sort is one of the rearrangements that [sort_values]
    may return. *)
Lemma sort_by_meets_sort_values {A : Type} (key : A -> float64)
      (l : list A) :
  sort_values_desc key l
    (sort_by (fun x y => desc_before (key x) (key y)) l).
Proof.
  split; [apply sort_by_perm |].
  apply (sort_by_sorted (fun x y => desc_before (key x) (key y))).
  - intros x y. apply desc_before_total.
  - intros x y z. apply desc_before_trans.
Qed.

Lemma supplier_ranking_stable_is_ranking
      (metrics : list supplier_metric) :
  supplier_ranking_of metrics (supplier_ranking_stable metrics).
Proof.
  eexists. split; [apply sort_by_meets_sort_values | reflexivity].
Qed.

(** ** Supplier ranking *)

Lemma rank_from_nth (mx : float64) (l : list supplier_metric) (k i : nat) :
  nth_error (rank_from mx k l) i =
    option_map
      (fun m => mkRanked m (cost_efficiency mx m) (performance_score mx m)
                         (k + i) (recommendation (k + i)))
      (nth_error l i).
Proof.
  revert k i. induction l as [| m t IH]; intros k i.
  - destruct i; reflexivity.
  - destruct i as [| i]; simpl.
    + rewrite Nat.add_0_r. reflexivity.
    + rewrite IH. rewrite Nat.add_succ_r. reflexivity.
Qed.







(* ================================================================== *)
(** * Part III: further properties of the stages                       *)
(* ================================================================== *)

(** ** Stage 2: cleaning *)

Lemma drop_duplicates_from_fresh {A : Type} (key : A -> string)
      (l : list A) (seen : list string) :
  NoDup (map key l) ->
  (forall x, In x l -> ~ In (key x) seen) ->
  drop_duplicates_from key seen l = l.
Proof.
  revert seen. induction l as [| a l IH]; intros seen Hnd Hfresh; simpl.
  - reflexivity.
  - inversion Hnd as [| ? ? Ha Hl]; subst.
    destruct (existsb (String.eqb (key a)) seen) eqn:E.
    + exfalso. apply existsb_exists in E. destruct E as (k & Hk & Ek).
      apply String.eqb_eq in Ek. subst k.
      apply (Hfresh a); [left; reflexivity | exact Hk].
    + f_equal. apply IH; trivial.
      intros x Hx [Ek | Hk].
      * apply Ha. rewrite Ek. apply in_map, Hx.
      * apply (Hfresh x); [right; exact Hx | exact Hk].
Qed.

(** X1: cleaning leaves a table with distinct keys as it is, and
    cleaning twice is cleaning once. *)
Theorem drop_duplicates_fixpoint {A : Type} (key : A -> string)
        (l : list A) :
  (NoDup (map key l) -> drop_duplicates key l = l) /\
  drop_duplicates key (drop_duplicates key l) = drop_duplicates key l.
Proof.
  assert (H : forall l', NoDup (map key l') -> drop_duplicates key l' = l').
  { intros l' Hnd. apply drop_duplicates_from_fresh; trivial.
    intros x _ []. }
  split; [apply H |]. apply H, drop_duplicates_NoDup.
Qed.

(** ** Stage 2: joins and derived columns *)

Lemma merge_left_In {L R : Type} (lkey : L -> string) (rkey : R -> string)
      (left : list L) (right : list R) (e : L * option R) :
  In e (merge_left lkey rkey left right) <->
  In (fst e) left /\
  match snd e with
  | Some r => In r right /\ rkey r = lkey (fst e)
  | None => forall r, In r right -> rkey r <> lkey (fst e)
  end.
Proof.
  unfold merge_left. rewrite in_flat_map. split.
  - intros (l & Hl & He).
    destruct (filter (fun r => String.eqb (rkey r) (lkey l)) right)
      as [| m ms] eqn:F.
    + destruct He as [<- | []]. simpl. split; trivial.
      intros r Hr E.
      assert (Hin : In r (filter (fun r => String.eqb (rkey r) (lkey l))
                                 right)).
      { apply filter_In. split; trivial. apply String.eqb_eq, E. }
      rewrite F in Hin. destruct Hin.
    + rewrite <- F in He. apply in_map_iff in He.
      destruct He as (r & <- & Hr). apply filter_In in Hr.
      destruct Hr as [Hr E]. apply String.eqb_eq in E.
      simpl. auto.
  - destruct e as [l o]. simpl. intros [Hl Ho]. exists l.
    split; trivial. destruct o as [r |].
    + destruct Ho as [Hr E].
      assert (Hin : In r (filter (fun r => String.eqb (rkey r) (lkey l))
                                 right)).
      { apply filter_In. split; trivial. apply String.eqb_eq, E. }
      destruct (filter (fun r => String.eqb (rkey r) (lkey l)) right)
        as [| m ms] eqn:F; [destruct Hin |].
      exact (in_map (fun r0 => (l, Some r0)) _ _ Hin).
    + assert (F : filter (fun r => String.eqb (rkey r) (lkey l)) right = []).
      { destruct (filter (fun r => String.eqb (rkey r) (lkey l)) right)
          as [| m ms] eqn:F; trivial.
        exfalso. assert (Hin : In m (m :: ms)) by (left; reflexivity).
        rewrite <- F in Hin. apply filter_In in Hin.
        destruct Hin as [Hm E]. apply String.eqb_eq in E.
        apply (Ho m Hm E). }
      rewrite F. left. reflexivity.
Qed.

(** X2: a sale whose product is not in the product table is not
    dropped and not an error: it is in the enriched table, every
    enriched row of that sale has no product columns, and its revenue,
    cost and profit are NaN. *)
Theorem unknown_product_keeps_sale
  (raw : list sale) (products : list product) (s : sale) :
  In s (clean_sales raw) ->
  ~ In (sale_product s) (map product_id products) ->
  In (s, None) (enriched_sales raw products) /\
  forall e, In e (enriched_sales raw products) -> sale_of e = s ->
    snd e = None /\ revenue e = NaN /\ cost e = NaN /\ profit e = NaN.
Proof.
  intros Hs Hno. unfold enriched_sales. split.
  - apply merge_left_In. simpl. split; trivial.
    intros r Hr E. apply Hno. rewrite <- E. apply in_map, Hr.
  - intros [s' o] He Es. unfold sale_of in Es. simpl in Es. subst s'.
    apply merge_left_In in He. simpl in He. destruct He as [_ Ho].
    assert (Eo : o = None).
    { destruct o as [r |]; trivial. destruct Ho as [Hr E].
      exfalso. apply Hno. rewrite <- E. apply in_map, Hr. }
    subst o. unfold profit, revenue, cost, merged_unit_price,
      merged_unit_cost. simpl. auto.
Qed.

Lemma unknown_product_keeps_sale_witness :
  In (mkSale "TRX000007" 5 "P0099" "W01" 4 4, None)
     (enriched_sales
        (mkSale "TRX000007" 5 "P0099" "W01" 4 4 :: sample_raw_sales)
        sample_products) /\
  forall e,
    In e (enriched_sales
            (mkSale "TRX000007" 5 "P0099" "W01" 4 4 :: sample_raw_sales)
            sample_products) ->
    sale_of e = mkSale "TRX000007" 5 "P0099" "W01" 4 4 ->
    snd e = None /\ revenue e = NaN /\ cost e = NaN /\ profit e = NaN.
Proof.
  apply (unknown_product_keeps_sale
           (mkSale "TRX000007" 5 "P0099" "W01" 4 4 :: sample_raw_sales)
           sample_products (mkSale "TRX000007" 5 "P0099" "W01" 4 4)).
  - left. reflexivity.
  - simpl. intuition discriminate.
Defined.

(** X3: on a sale joined to a product with a price and a cost, the
    profit is quantity_fulfilled * (unit_price - unit_cost); it is not
    negative when the price is at least the cost and the fulfilled
    quantity is not negative, and then the cost does not exceed the
    revenue. *)
Theorem profit_of_known_product
  (e : sale * option product) (pr : product) (p c : Q) :
  snd e = Some pr -> unit_price pr = Fin p -> prod_unit_cost pr = Fin c ->
  (0 <= quantity_fulfilled (sale_of e))%Z -> c <= p ->
  exists r k g,
    revenue e = Fin r /\ cost e = Fin k /\ profit e = Fin g /\
    g == inject_Z (quantity_fulfilled (sale_of e)) * (p - c) /\
    0 <= g /\ k <= r.
Proof.
  intros Es Ep Ec Hf Hcp.
  unfold profit, revenue, cost, merged_unit_price, merged_unit_cost.
  rewrite Es, Ep, Ec. simpl.
  assert (H0 : 0 <= inject_Z (quantity_fulfilled (sale_of e))).
  { change 0 with (inject_Z 0). rewrite <- Zle_Qle. exact Hf. }
  eexists. eexists. eexists.
  split; [reflexivity |]. split; [reflexivity |]. split; [reflexivity |].
  split; [ring |]. split; nra.
Qed.

Lemma profit_of_known_product_witness :
  exists r k g,
    revenue (mkSale "TRX000005" 69 "P0002" "W01" 9 4,
             Some (mkProduct "P0002" "Item_2" "Apparel" (Fin 12.5) 4
                             (Fin 20))) = Fin r /\
    cost (mkSale "TRX000005" 69 "P0002" "W01" 9 4,
          Some (mkProduct "P0002" "Item_2" "Apparel" (Fin 12.5) 4
                          (Fin 20))) = Fin k /\
    profit (mkSale "TRX000005" 69 "P0002" "W01" 9 4,
            Some (mkProduct "P0002" "Item_2" "Apparel" (Fin 12.5) 4
                            (Fin 20))) = Fin g /\
    g == inject_Z 4 * (20 - 12.5) /\
    0 <= g /\ k <= r.
Proof.
  apply (profit_of_known_product
           (mkSale "TRX000005" 69 "P0002" "W01" 9 4,
            Some (mkProduct "P0002" "Item_2" "Apparel" (Fin 12.5) 4
                            (Fin 20)))
           (mkProduct "P0002" "Item_2" "Apparel" (Fin 12.5) 4 (Fin 20))
           20 12.5).
  - reflexivity.
  - reflexivity.
  - reflexivity.
  - simpl. lia.
  - unfold Qle. simpl. lia.
Defined.

(** ** Stage 2: flags, rates and counts *)

Lemma round_dec_one (d : nat) : round_dec d 1 == 1.
Proof.
  unfold round_dec.
  assert (E : 1 * pow10 d == inject_Z (10 ^ Z.of_nat d))
    by (unfold pow10; ring).
  rewrite (round_half_even_comp _ _ E), round_half_even_Z.
  fold (pow10 d). pose proof (pow10_pos d) as Hp. field. lra.
Qed.

Lemma round_dec_zero (d : nat) : round_dec d 0 == 0.
Proof.
  unfold round_dec.
  assert (E : 0 * pow10 d == inject_Z 0) by (unfold pow10; ring).
  rewrite (round_half_even_comp _ _ E), round_half_even_Z.
  pose proof (pow10_pos d) as Hp. unfold Qdiv. ring.
Qed.

(** X4: on a row with a positive ordered quantity the stockout flag is
    0 exactly when the order was fulfilled in full, and a fulfilment
    rate below 1 always comes with the flag set.  (The converse fails:
    19999 of 20000 units round to a rate of 1.0 with the flag set.) *)
Theorem stockout_flag_and_rate (s : sale) :
  (1 <= quantity_ordered s)%Z ->
  (stockout_flag s = 0%Z <-> (quantity_ordered s <= quantity_fulfilled s)%Z)
  /\
  (forall q, fulfillment_rate s = Fin q -> q < 1 -> stockout_flag s = 1%Z).
Proof.
  intros Ho.
  assert (Hflag : stockout_flag s = 0%Z <->
                  (quantity_ordered s <= quantity_fulfilled s)%Z).
  { unfold stockout_flag.
    destruct (Z.ltb_spec (quantity_fulfilled s) (quantity_ordered s));
      split; intros; try lia; discriminate. }
  split; [exact Hflag |].
  intros q Eq Hq.
  unfold stockout_flag.
  destruct (Z.ltb_spec (quantity_fulfilled s) (quantity_ordered s))
    as [_ | Hge]; [reflexivity | exfalso].
  unfold fulfillment_rate, of_int in Eq.
  assert (Hp : 0 < inject_Z (quantity_ordered s)).
  { change 0 with (inject_Z 0). rewrite <- Zlt_Qlt. lia. }
  rewrite fdiv_fin_pos in Eq by exact Hp. simpl in Eq.
  injection Eq as Eq.
  assert (H1 : 1 <= inject_Z (quantity_fulfilled s)
                    / inject_Z (quantity_ordered s)).
  { apply Qle_shift_div_l; trivial. rewrite Qmult_1_l.
    rewrite <- Zle_Qle. exact Hge. }
  pose proof (round_dec_mono 3 _ _ H1) as Hm.
  rewrite round_dec_one in Hm. rewrite Eq in Hm. lra.
Qed.

Lemma stockout_flag_and_rate_witness :
  (stockout_flag (mkSale "TRX000005" 69 "P0002" "W01" 9 4) = 0%Z <->
   (9 <= 4)%Z) /\
  (forall q,
     fulfillment_rate (mkSale "TRX000005" 69 "P0002" "W01" 9 4) = Fin q ->
     q < 1 -> stockout_flag (mkSale "TRX000005" 69 "P0002" "W01" 9 4) = 1%Z).
Proof.
  apply (stockout_flag_and_rate (mkSale "TRX000005" 69 "P0002" "W01" 9 4)).
  simpl. lia.
Defined.

Example rounded_rate_hides_stockout :
  stockout_flag (mkSale "TRX000010" 1 "P0001" "W01" 20000 19999) = 1%Z /\
  feq (fulfillment_rate (mkSale "TRX000010" 1 "P0001" "W01" 20000 19999))
      (Fin 1).
Proof. split; vm_compute; reflexivity. Qed.

Lemma sum_flags_bounds {A : Type} (f : A -> Z) (l : list A) :
  (forall x, (0 <= f x <= 1)%Z) ->
  (0 <= sum_Z (map f l) <= Z.of_nat (List.length l))%Z.
Proof.
  intros Hf. induction l as [| a l IH]; simpl; [lia |].
  pose proof (Hf a). lia.
Qed.

Lemma sum_flags_count {A : Type} (f : A -> Z) (l : list A) :
  (forall x, f x = 0%Z \/ f x = 1%Z) ->
  sum_Z (map f l)
  = Z.of_nat (List.length (filter (fun x => (f x =? 1)%Z) l)).
Proof.
  intros Hf. induction l as [| a l IH]; [reflexivity |].
  cbn [map filter].
  change (sum_Z (f a :: map f l)) with (f a + sum_Z (map f l))%Z.
  rewrite IH.
  destruct (Hf a) as [E | E]; rewrite E; cbn [Z.eqb Pos.eqb List.length];
    lia.
Qed.

Lemma is_delayed_flag
  (e : supply_order * option supplier * option product * option product) :
  (0 <= is_delayed e <= 1)%Z.
Proof. unfold is_delayed. destruct (flt_bool _ _); lia. Qed.

Lemma stockout_flag_flag (s : sale) :
  stockout_flag s = 0%Z \/ stockout_flag s = 1%Z.
Proof. unfold stockout_flag. destruct (_ <? _)%Z; auto. Qed.

Lemma unit_ratio (n d : Z) :
  (0 <= n <= d)%Z -> (0 < d)%Z ->
  fdiv (of_int n) (of_int d) = Fin (inject_Z n / inject_Z d) /\
  0 <= inject_Z n / inject_Z d <= 1.
Proof.
  intros [H0 H1] Hd. unfold of_int.
  assert (Hp : 0 < inject_Z d).
  { change 0 with (inject_Z 0). rewrite <- Zlt_Qlt. exact Hd. }
  assert (Hn : 0 <= inject_Z n).
  { change 0 with (inject_Z 0). rewrite <- Zle_Qle. exact H0. }
  assert (Hle : inject_Z n <= inject_Z d) by (rewrite <- Zle_Qle; exact H1).
  split; [apply fdiv_fin_pos, Hp |]. split.
  - apply Qdiv_nonneg; trivial.
  - apply Qdiv_le_1; trivial.
Qed.

(** X5: for a supplier with at least one order the on-time rate is a
    number between 0 and 1, and it is 1 when none of its orders is
    delayed; an order whose product is unknown has no expected delivery
    time and never counts as delayed. *)
Theorem on_time_rate_unit (sup : string)
  (rows : list (supply_order * option supplier * option product
                * option product)) :
  (0 < total_orders_of sup rows)%nat ->
  (exists q, on_time_rate_of sup rows = Fin q /\ 0 <= q <= 1 /\
             (delayed_orders_of sup rows = 0%Z -> q == 1)) /\
  (forall e, In e rows -> snd (fst e) = None -> is_delayed e = 0%Z).
Proof.
  intros Ht. split.
  - unfold on_time_rate_of.
    pose proof (sum_flags_bounds is_delayed
      (filter (fun e => String.eqb (order_supplier (order_of e)) sup) rows)
      is_delayed_flag) as Hb.
    fold (delayed_orders_of sup rows) in Hb.
    change (List.length _) with (total_orders_of sup rows) in Hb.
    destruct (unit_ratio (delayed_orders_of sup rows)
                (Z.of_nat (total_orders_of sup rows)) Hb) as [E Hu];
      [lia |].
    rewrite E. simpl. eexists. split; [reflexivity |]. split.
    + apply round_dec_unit. lra.
    + intros Hz. rewrite Hz.
      assert (Eq : 1 + - (inject_Z 0
                          / inject_Z (Z.of_nat (total_orders_of sup rows)))
                   == 1).
      { unfold Qdiv. change (inject_Z 0) with 0. ring. }
      unfold round_dec. rewrite (round_half_even_comp _ _
        (Qmult_comp _ _ Eq _ _ (Qeq_refl _))).
      apply round_dec_one.
  - intros e _ Hnone. unfold is_delayed, delay_days, expected_delivery_days.
    rewrite Hnone. reflexivity.
Qed.

Lemma on_time_rate_unit_witness :
  (exists q,
     on_time_rate_of "S001"
       (enriched_orders sample_raw_orders sample_suppliers sample_products)
     = Fin q /\ 0 <= q <= 1 /\
     (delayed_orders_of "S001"
        (enriched_orders sample_raw_orders sample_suppliers sample_products)
      = 0%Z -> q == 1)) /\
  (forall e,
     In e (enriched_orders sample_raw_orders sample_suppliers
             sample_products) ->
     snd (fst e) = None -> is_delayed e = 0%Z).
Proof.
  apply (on_time_rate_unit "S001"
           (enriched_orders sample_raw_orders sample_suppliers
              sample_products)).
  vm_compute. lia.
Defined.

(** X6: the stockout count of a product is the number of its enriched
    rows fulfilled short, it lies between 0 and its transaction count
    (what the risk score needs of the two counts), and for a product
    with a transaction the stockout rate is a number between 0 and 1. *)
Theorem product_counts (p : string) (rows : list (sale * option product)) :
  stockout_count_of p rows =
    Z.of_nat
      (List.length
         (filter (fun e => (quantity_fulfilled (sale_of e)
                            <? quantity_ordered (sale_of e))%Z)
            (filter (fun e => String.eqb (sale_product (sale_of e)) p)
                    rows))) /\
  (0 <= stockout_count_of p rows
     <= Z.of_nat (transaction_count_of p rows))%Z /\
  ((0 < transaction_count_of p rows)%nat ->
   exists q, stockout_rate_of p rows = Fin q /\ 0 <= q <= 1).
Proof.
  set (mine := filter (fun e => String.eqb (sale_product (sale_of e)) p)
                      rows).
  assert (Hb : (0 <= stockout_count_of p rows
                <= Z.of_nat (transaction_count_of p rows))%Z).
  { unfold stockout_count_of, transaction_count_of. fold mine.
    apply (sum_flags_bounds (fun e => stockout_flag (sale_of e))).
    intros e. destruct (stockout_flag_flag (sale_of e)) as [-> | ->]; lia. }
  split; [| split; [exact Hb |]].
  - unfold stockout_count_of. fold mine.
    rewrite (sum_flags_count (fun e => stockout_flag (sale_of e)))
      by (intros e; apply stockout_flag_flag).
    do 2 f_equal. apply filter_ext. intros e. unfold stockout_flag.
    destruct (_ <? _)%Z; reflexivity.
  - intros Ht. unfold stockout_rate_of.
    destruct (unit_ratio _ _ Hb) as [E Hu]; [lia |].
    rewrite E. simpl. eexists. split; [reflexivity |].
    apply round_dec_unit, Hu.
Qed.

(** ** Stage 3: smoothing *)

Lemma round_dec_int (d : nat) (z : Z) : round_dec d (inject_Z z) == inject_Z z.
Proof.
  unfold round_dec.
  assert (E : inject_Z z * pow10 d == inject_Z (z * 10 ^ Z.of_nat d)).
  { unfold pow10. rewrite inject_Z_mult. reflexivity. }
  rewrite (round_half_even_comp _ _ E), round_half_even_Z.
  rewrite inject_Z_mult. fold (pow10 d).
  pose proof (pow10_pos d) as Hp. field. lra.
Qed.

Lemma ewm_from_within (alpha prev lo hi : Q) (xs : list Q) :
  0 <= alpha <= 1 -> lo <= prev <= hi ->
  Forall (fun q => lo <= q <= hi) xs ->
  Forall (fun q => lo <= q <= hi) (ewm_from alpha prev xs).
Proof.
  intros Ha Hp H. revert prev Hp.
  induction H as [| x xs Hx _ IH]; intros prev Hp; simpl; constructor.
  - split; nra.
  - apply IH. split; nra.
Qed.

Lemma ewm_mean_within (lo hi : Q) (xs : list Q) :
  Forall (fun q => lo <= q <= hi) xs ->
  Forall (fun q => lo <= q <= hi) (ewm_mean 7 xs).
Proof.
  intros H. destruct H as [| x xs Hx Hxs]; simpl; constructor; trivial.
  apply ewm_from_within; trivial.
  split; unfold Qle; simpl; lia.
Qed.

Lemma last_In {A : Type} (l : list A) (d : A) : l <> [] -> In (last l d) l.
Proof.
  induction l as [| x l IH]; [congruence |]. intros _.
  destruct l as [| y l]; [left; reflexivity |].
  right. apply IH. discriminate.
Qed.

Lemma ewm_mean_nonempty (xs : list Q) : xs <> [] -> ewm_mean 7 xs <> [].
Proof. destruct xs; [congruence | discriminate]. Qed.

(** X7: the exponential average never leaves the range of the daily
    quantities, so every forecast row of a product lies between the
    smallest and the largest quantity ordered on a day of its
    history. *)
Theorem forecast_within_history
  (p : string) (sales : list sale) (dd : list (Z * Z))
  (rows : list forecast_row) (lo hi : Z) :
  daily_demand (prod_sales p sales) = Some dd ->
  (forall d q, In (d, q) dd -> (lo <= q <= hi)%Z) ->
  forecast_product p sales = Some rows ->
  inject_Z lo <= last_ema dd <= inject_Z hi /\
  forall row, In row rows ->
    inject_Z lo <= forecasted_demand row <= inject_Z hi.
Proof.
  intros Edd Hrange Erows.
  assert (Hq : Forall (fun q => inject_Z lo <= q <= inject_Z hi)
                      (quantities dd)).
  { unfold quantities. rewrite Forall_map. apply Forall_forall.
    intros [d q] Hin. simpl. rewrite <- !Zle_Qle. apply (Hrange d q Hin). }
  assert (Hne : quantities dd <> []).
  { destruct (prod_sales p sales) as [| s l]; [discriminate |].
    destruct (daily_demand_shape (s :: l)) as (dd' & E' & _ & Hlen & _);
      [discriminate |].
    rewrite Edd in E'. injection E' as <-.
    pose proof (series_min_le (map sale_date (s :: l)) (sale_date s)
                  (or_introl eq_refl)) as H1.
    pose proof (series_max_ge (map sale_date (s :: l)) (sale_date s)
                  (or_introl eq_refl)) as H2.
    intros E. apply (f_equal (@List.length Q)) in E.
    unfold quantities in E. rewrite length_map in E.
    change (List.length (@nil Q)) with 0%nat in E. lia. }
  assert (He : inject_Z lo <= last_ema dd <= inject_Z hi).
  { unfold last_ema.
    pose proof (ewm_mean_within _ _ _ Hq) as Hw.
    rewrite Forall_forall in Hw. apply Hw.
    apply last_In, ewm_mean_nonempty, Hne. }
  split; [exact He |].
  intros row Hrow. unfold forecast_product in Erows. rewrite Edd in Erows.
  destruct (60 <? List.length dd)%nat; injection Erows as <-;
    [| destruct Hrow].
  unfold forecast_rows_for in Hrow. apply in_map_iff in Hrow.
  destruct Hrow as (d & <- & _). simpl.
  rewrite <- (round_dec_int 1 lo), <- (round_dec_int 1 hi).
  split; apply round_dec_mono; apply He.
Qed.

Lemma forecast_within_history_witness :
  inject_Z 0 <= last_ema sample_series <= inject_Z 2 /\
  forall row, In row (forecast_rows_for "P0001" sample_series) ->
    inject_Z 0 <= forecasted_demand row <= inject_Z 2.
Proof.
  apply (forecast_within_history "P0001" sample_sales sample_series
           (forecast_rows_for "P0001" sample_series) 0 2).
  - reflexivity.
  - intros d q Hin.
    assert (H : Forall (fun dq => (0 <= snd dq <= 2)%Z) sample_series).
    { unfold sample_series. repeat (constructor; [simpl; lia |]).
      constructor. }
    rewrite Forall_forall in H. apply (H (d, q) Hin).
  - reflexivity.
Defined.

Lemma sum_Q_within (lo hi : Q) (l : list Q) :
  Forall (fun q => lo <= q <= hi) l ->
  inject_Z (Z.of_nat (List.length l)) * lo <= sum_Q l
  <= inject_Z (Z.of_nat (List.length l)) * hi.
Proof.
  induction 1 as [| x l Hx _ IH].
  - simpl. change (inject_Z 0) with 0. lra.
  - change (sum_Q (x :: l)) with (x + sum_Q l).
    change (List.length (x :: l)) with (S (List.length l)).
    rewrite Nat2Z.inj_succ. unfold Z.succ. rewrite inject_Z_plus.
    change (inject_Z 1) with 1. lra.
Qed.

Lemma mean_Q_within (lo hi : Q) (l : list Q) :
  l <> [] -> Forall (fun q => lo <= q <= hi) l ->
  lo <= mean_Q l <= hi.
Proof.
  intros Hne H. pose proof (sum_Q_within lo hi l H) as [H1 H2].
  assert (Hn : 0 < inject_Z (Z.of_nat (List.length l))).
  { change 0 with (inject_Z 0). rewrite <- Zlt_Qlt.
    destruct l; [congruence | simpl; lia]. }
  unfold mean_Q. split.
  - apply Qle_shift_div_l; trivial. lra.
  - apply Qle_shift_div_r; trivial. lra.
Qed.

Lemma window_at_length (w i : nat) (xs : list Q) :
  (i < List.length xs)%nat ->
  List.length (window_at w i xs) = Nat.min (S i) w.
Proof.
  intros Hi. unfold window_at.
  rewrite length_skipn, length_firstn. lia.
Qed.

Lemma window_at_incl (w i : nat) (xs : list Q) :
  incl (window_at w i xs) xs.
Proof.
  intros x Hx. unfold window_at in Hx.
  apply (In_firstn (S i)).
  rewrite <- (firstn_skipn (S i - w) (firstn (S i) xs)).
  apply in_or_app. right. exact Hx.
Qed.

(** X8: the 7-day moving average has one value per day, computed from
    min(i + 1, 7) values at day i (so from the first day on), and each
    value lies between the smallest and the largest value of the
    series. *)
Theorem rolling_mean_within (xs : list Q) (lo hi : Q) :
  Forall (fun q => lo <= q <= hi) xs ->
  List.length (rolling_mean 7 xs) = List.length xs /\
  (forall i, (i < List.length xs)%nat ->
     List.length (window_at 7 i xs) = Nat.min (S i) 7 /\
     nth_error (rolling_mean 7 xs) i = Some (mean_Q (window_at 7 i xs))) /\
  Forall (fun m => lo <= m <= hi) (rolling_mean 7 xs).
Proof.
  intros H. unfold rolling_mean. split; [| split].
  - rewrite length_map, length_seq. reflexivity.
  - intros i Hi. split; [apply window_at_length, Hi |].
    rewrite nth_error_map, nth_error_seq.
    destruct (Nat.ltb_spec i (List.length xs)); [reflexivity | lia].
  - rewrite Forall_map. apply Forall_forall. intros i Hi.
    apply in_seq in Hi. apply mean_Q_within.
    + intros E. apply (f_equal (@List.length Q)) in E.
      rewrite window_at_length in E by lia. simpl in E. lia.
    + apply Forall_forall. intros x Hx.
      rewrite Forall_forall in H. apply H.
      apply (window_at_incl 7 i xs x Hx).
Qed.

Lemma rolling_mean_within_witness :
  List.length (rolling_mean 7 [3; 0; 6]) = List.length [3; 0; 6] /\
  (forall i, (i < List.length [3; 0; 6])%nat ->
     List.length (window_at 7 i [3; 0; 6]) = Nat.min (S i) 7 /\
     nth_error (rolling_mean 7 [3; 0; 6]) i
     = Some (mean_Q (window_at 7 i [3; 0; 6]))) /\
  Forall (fun m => 0 <= m <= 6) (rolling_mean 7 [3; 0; 6]).
Proof.
  apply (rolling_mean_within [3; 0; 6] 0 6).
  repeat constructor; unfold Qle; simpl; lia.
Defined.

Example sample_rolling_mean :
  map Qred (rolling_mean 7 [3; 0; 6]) = [3; 3 # 2; 3].
Proof. reflexivity. Qed.

(** ** Stage 3: the dense series and the forecast table *)

Lemma sum_Z_map_add {A : Type} (f g : A -> Z) (l : list A) :
  sum_Z (map (fun x => (f x + g x)%Z) l)
  = (sum_Z (map f l) + sum_Z (map g l))%Z.
Proof.
  induction l as [| a l IH]; [reflexivity |].
  cbn [map]. change (sum_Z (?x :: ?t)) with (x + sum_Z t)%Z.
  unfold sum_Z in *. simpl. rewrite IH. lia.
Qed.

Lemma sum_Z_indicator (D : list Z) (x q : Z) :
  NoDup D -> In x D ->
  sum_Z (map (fun d => if (x =? d)%Z then q else 0%Z) D) = q.
Proof.
  intros Hnd. induction Hnd as [| d D Hd _ IH]; intros Hin; [destruct Hin |].
  unfold sum_Z in *. simpl.
  destruct (Z.eqb_spec x d) as [E | NE].
  - subst d.
    assert (Z0 : fold_right Z.add 0%Z
                   (map (fun d => if (x =? d)%Z then q else 0%Z) D) = 0%Z).
    { clear IH Hin. induction D as [| e D IHD]; [reflexivity |].
      simpl. destruct (Z.eqb_spec x e) as [E | _].
      - exfalso. apply Hd. left. symmetry. exact E.
      - rewrite IHD; [reflexivity |]. intros H. apply Hd. right. exact H. }
    rewrite Z0. lia.
  - destruct Hin as [E | Hin]; [congruence |]. rewrite IH by exact Hin. lia.
Qed.

Lemma sum_quantity_on (D : list Z) (l : list sale) :
  NoDup D -> (forall s, In s l -> In (sale_date s) D) ->
  sum_Z (map (fun d => quantity_on d l) D)
  = sum_Z (map quantity_ordered l).
Proof.
  intros Hnd. induction l as [| s l IH]; intros Hin.
  - unfold quantity_on. simpl. clear Hnd Hin.
    induction D as [| d D IHD]; [reflexivity |].
    unfold sum_Z in *. simpl. rewrite IHD. reflexivity.
  - assert (E : forall d, quantity_on d (s :: l)
               = ((if (sale_date s =? d)%Z then quantity_ordered s else 0)
                  + quantity_on d l)%Z).
    { intros d. unfold quantity_on. simpl.
      destruct (sale_date s =? d)%Z; reflexivity. }
    rewrite (map_ext _ _ E), sum_Z_map_add.
    rewrite sum_Z_indicator; trivial; [| apply Hin; left; reflexivity].
    rewrite IH; [reflexivity |]. intros s' Hs'. apply Hin. right. exact Hs'.
Qed.

Lemma date_range_NoDup (start : Z) (n : nat) : NoDup (date_range start n).
Proof.
  unfold date_range. apply NoDup_map_NoDup_ForallPairs.
  - intros i j _ _ E. lia.
  - apply seq_NoDup.
Qed.

(** X9: filling the gaps loses and adds nothing: the quantities of the
    dense daily series of a product add up to the quantities ordered in
    its sales, and the series has one row per day from the first to the
    last sale date. *)
Theorem daily_demand_conserves_quantity
  (p : string) (sales : list sale) (dd : list (Z * Z)) :
  daily_demand (prod_sales p sales) = Some dd ->
  sum_Z (map snd dd) = sum_Z (map quantity_ordered (prod_sales p sales)) /\
  map fst dd =
    date_range (series_min (map sale_date (prod_sales p sales)))
               (List.length dd) /\
  Z.of_nat (List.length dd) =
    (series_max (map sale_date (prod_sales p sales))
     - series_min (map sale_date (prod_sales p sales)) + 1)%Z.
Proof.
  intros Edd.
  set (l := prod_sales p sales) in *.
  assert (Hne : l <> []) by (intros E; rewrite E in Edd; discriminate).
  destruct (daily_demand_shape l Hne) as (dd' & E' & Hd & Hlen & _).
  rewrite Edd in E'. injection E' as <-.
  split; [| split; [| exact Hlen]].
  - destruct l as [| s t] eqn:El; [congruence |].
    injection Edd as <-. rewrite map_map. cbn [snd].
    apply sum_quantity_on; [apply date_range_NoDup |].
    intros s' Hs'. apply date_range_In.
    pose proof (series_min_le (map sale_date (s :: t)) (sale_date s')
                  (in_map sale_date _ _ Hs')) as H1.
    pose proof (series_max_ge (map sale_date (s :: t)) (sale_date s')
                  (in_map sale_date _ _ Hs')) as H2.
    cbn [series_min series_max map] in H1, H2. lia.
  - rewrite Hd. f_equal. lia.
Qed.

Lemma daily_demand_conserves_quantity_witness :
  sum_Z (map snd sample_series)
  = sum_Z (map quantity_ordered (prod_sales "P0001" sample_sales)) /\
  map fst sample_series =
    date_range (series_min (map sale_date (prod_sales "P0001" sample_sales)))
               (List.length sample_series) /\
  Z.of_nat (List.length sample_series) =
    (series_max (map sale_date (prod_sales "P0001" sample_sales))
     - series_min (map sale_date (prod_sales "P0001" sample_sales)) + 1)%Z.
Proof.
  apply (daily_demand_conserves_quantity "P0001" sample_sales sample_series).
  reflexivity.
Defined.

Lemma forecast_product_length (p : string) (sales : list sale)
      (rows : list forecast_row) :
  forecast_product p sales = Some rows ->
  List.length rows = 0%nat \/ List.length rows = 30%nat.
Proof.
  unfold forecast_product.
  destruct (daily_demand (prod_sales p sales)) as [dd |]; [| discriminate].
  destruct (60 <? List.length dd)%nat; intros E; injection E as <-.
  - right. apply forecast_rows_for_length.
  - left. reflexivity.
Qed.

Lemma forecasts_list_length (tops : list string) (sales : list sale) :
  forall out, forecasts_list tops sales = Some out ->
  exists k, (k <= List.length tops)%nat /\
            List.length out = (30 * k)%nat.
Proof.
  induction tops as [| p rest IH]; simpl; intros out E.
  - injection E as <-. exists 0%nat. split; [lia | reflexivity].
  - destruct (forecast_product p sales) as [rows |] eqn:Ep; [| discriminate].
    destruct (forecasts_list rest sales) as [more |]; [| discriminate].
    injection E as <-. destruct (IH more eq_refl) as (k & Hk & Hm).
    rewrite length_app, Hm.
    destruct (forecast_product_length _ _ _ Ep) as [-> | ->].
    + exists k. split; lia.
    + exists (S k). split; lia.
Qed.

(** X10: when the forecasting loop over the top-5 selection completes,
    the forecast table has 30 rows for each of at most five products,
    hence at most 150 rows, and every row belongs to a selected
    product. *)
Theorem forecast_table_size
  (metrics : list product_metric) (sales : list sale)
  (out : list forecast_row) :
  forecasts_list (top_products metrics) sales = Some out ->
  (exists k, (k <= 5)%nat /\ List.length out = (30 * k)%nat) /\
  (List.length out <= 150)%nat /\
  Forall (fun r => In (fr_product_id r) (top_products metrics)) out.
Proof.
  intros E.
  assert (H5 : (List.length (top_products metrics) <= 5)%nat).
  { unfold top_products, nlargest. rewrite length_map, length_firstn. lia. }
  destruct (forecasts_list_length _ _ _ E) as (k & Hk & Hl).
  split; [exists k; split; [lia | exact Hl] |].
  split; [lia |]. apply (forecasts_list_products _ _ _ E).
Qed.

Lemma forecast_table_size_witness :
  (exists k, (k <= 5)%nat /\
     List.length (forecast_rows_for "P0001" sample_series ++ [])
     = (30 * k)%nat) /\
  (List.length (forecast_rows_for "P0001" sample_series ++ []) <= 150)%nat /\
  Forall (fun r => In (fr_product_id r) (top_products sample_product_metrics))
         (forecast_rows_for "P0001" sample_series ++ []).
Proof.
  apply (forecast_table_size sample_product_metrics sample_sales
           (forecast_rows_for "P0001" sample_series ++ [])).
  reflexivity.
Defined.

(** X11: the forecasting loop fails exactly when one of the products it
    is given has no sale at all (the date range of an empty history
    does not exist); a history that is merely too short never makes it
    fail. *)
Theorem forecasts_list_fails_iff (tops : list string) (sales : list sale) :
  forecasts_list tops sales = None <->
  exists p, In p tops /\ prod_sales p sales = [].
Proof.
  induction tops as [| p rest IH]; simpl.
  - split; [discriminate | intros (q & [] & _)].
  - unfold forecast_product at 1.
    destruct (daily_demand (prod_sales p sales)) as [dd |] eqn:Ed.
    + assert (Hne : prod_sales p sales <> []).
      { intros E. rewrite E in Ed. discriminate. }
      assert (Es : exists rows,
                (if (60 <? List.length dd)%nat
                 then Some (forecast_rows_for p dd) else Some [])
                = Some rows).
      { destruct (60 <? List.length dd)%nat; eexists; reflexivity. }
      destruct Es as (rows & ->).
      destruct (forecasts_list rest sales) as [more |].
      * split; [discriminate |].
        intros (q & [<- | Hq] & Eq); [congruence |].
        destruct IH as [_ IH].
        assert (N : Some more = None) by (apply IH; exists q; auto).
        discriminate.
      * split; [| reflexivity]. intros _.
        destruct IH as [IH _]. destruct (IH eq_refl) as (q & Hq & Eq).
        exists q. auto.
    + split; [| reflexivity]. intros _. exists p. split; [left; reflexivity |].
      apply daily_demand_none, Ed.
Qed.

(** ** Stage 3: the selection by revenue *)

Lemma StronglySorted_app_inv {A : Type} (R : A -> A -> Prop)
      (l1 l2 : list A) :
  StronglySorted R (l1 ++ l2) ->
  StronglySorted R l1 /\
  forall a b, In a l1 -> In b l2 -> R a b.
Proof.
  induction l1 as [| x l1 IH]; simpl; intros H.
  - split; [constructor | intros a b []].
  - apply StronglySorted_inv in H. destruct H as [Hs Hx].
    destruct (IH Hs) as [H1 H2]. rewrite Forall_forall in Hx. split.
    + constructor; trivial. apply Forall_forall. intros y Hy.
      apply Hx, in_or_app. left. exact Hy.
    + intros a b [<- | Ha] Hb.
      * apply Hx, in_or_app. right. exact Hb.
      * apply H2; trivial.
Qed.

(** X12: the selection keeps the five metrics rows of largest total
    revenue (all rows when there are fewer), in decreasing order of
    revenue: no row left out has a larger revenue than a selected
    one. *)
Theorem top_products_are_largest (metrics : list product_metric) :
  top_products metrics
  = map pm_product_id (nlargest 5 total_revenue metrics) /\
  List.length (nlargest 5 total_revenue metrics)
  = Nat.min 5 (List.length metrics) /\
  StronglySorted (fun a b => total_revenue b <= total_revenue a)
                 (nlargest 5 total_revenue metrics) /\
  exists rest,
    Permutation metrics (nlargest 5 total_revenue metrics ++ rest) /\
    forall a b, In a (nlargest 5 total_revenue metrics) -> In b rest ->
      total_revenue b <= total_revenue a.
Proof.
  unfold nlargest.
  set (before := fun x y : product_metric =>
                   Qle_bool (total_revenue y) (total_revenue x)).
  set (sorted := sort_by before metrics).
  assert (Hp : Permutation metrics sorted) by apply sort_by_perm.
  assert (Hs : StronglySorted (fun a b => before a b = true) sorted).
  { apply sort_by_sorted.
    - intros x y H. unfold before in *. apply Qle_bool_false in H.
      apply Qle_bool_iff. lra.
    - intros x y z H1 H2. unfold before in *.
      rewrite Qle_bool_iff in *. lra. }
  rewrite <- (firstn_skipn 5 sorted) in Hs.
  apply StronglySorted_app_inv in Hs. destruct Hs as [Hs1 Hs2].
  split; [reflexivity |].
  split; [rewrite length_firstn, (Permutation_length Hp); reflexivity |].
  split.
  - clear Hs2. induction Hs1 as [| a t Ht IH Ha]; constructor; trivial.
    eapply Forall_impl; [| exact Ha].
    intros b Hb. apply Qle_bool_iff, Hb.
  - exists (skipn 5 sorted). split.
    + rewrite firstn_skipn. exact Hp.
    + intros a b Ha Hb. apply Qle_bool_iff. apply (Hs2 a b Ha Hb).
Qed.

Example sample_selection :
  top_products
    [ mkProductMetric "A" 5; mkProductMetric "B" 7; mkProductMetric "C" 5;
      mkProductMetric "D" 9; mkProductMetric "E" 1; mkProductMetric "F" 5;
      mkProductMetric "G" 2 ]
  = ["D"; "B"; "A"; "C"; "F"]%string.
Proof. reflexivity. Qed.

(** ** Stage 3: the risk score *)

(** X13: on a table whose rows respect the data model, a product whose
    lead time is more than 1/400 of the longest lead time of the table
    has a positive score and gets one of the three categories; so a
    table whose lead times are within a factor of 400 of each other has
    no row without a category. *)
Theorem category_defined_for_comparable_lead_times
  (rows : list risk_input) (row : risk_row) :
  Forall valid_risk_input rows ->
  In row (risk_table rows) ->
  (max_lead_time rows < 400 * lead_time_days (rr_input row))%Z ->
  exists s label,
    rr_score row = Fin s /\ 0 < s <= 1 /\ rr_category row = Some label.
Proof.
  intros Hall Hin Hlead. unfold risk_table in Hin.
  apply in_map_iff in Hin. destruct Hin as (r & <- & Hr).
  rewrite Forall_forall in Hall. pose proof (Hall r Hr) as Hv.
  cbn [rr_input risk_row_of] in Hlead.
  assert (HQ : inject_Z (max_lead_time rows)
               < 400 * inject_Z (lead_time_days r)).
  { change 400 with (inject_Z 400).
    rewrite <- inject_Z_mult, <- Zlt_Qlt. exact Hlead. }
  assert (Hmx : (lead_time_days r <= max_lead_time rows)%Z).
  { apply series_max_ge, in_map, Hr. }
  destruct (risk_terms _ r Hv Hmx)
    as (hsr & dv & dos & Eh & Ev & Ed & Er & Hh & Hd & Ho).
  destruct (lead_ratio_unit (lead_time_days r) (max_lead_time rows))
    as [_ Hl]; [destruct Hv; lia |].
  set (l := inject_Z (lead_time_days r) / inject_Z (max_lead_time rows))
    in *.
  set (raw := 0.30 * hsr + 0.25 * qmin dv 1
              + 0.25 * (1 + - qmin (dos / 30) 1) + 0.20 * l) in *.
  assert (Hraw : 0 <= raw <= 1).
  { unfold raw. apply risk_formula_unit; lra. }
  assert (Hl400 : 1 # 400 < l).
  { unfold l. apply Qlt_shift_div_l; [| lra].
    change 0 with (inject_Z 0). rewrite <- Zlt_Qlt. destruct Hv; lia. }
  assert (Hbig : 1 # 2 < raw * pow10 3).
  { assert (B1 := qmin_bounds dv 1). assert (B2 := qmin_bounds (dos / 30) 1).
    assert (0 <= dos / 30) by (apply Qdiv_nonneg; lra).
    assert (E : pow10 3 == 1000) by reflexivity. rewrite E.
    unfold raw. specialize (B1 ltac:(lra) ltac:(lra)).
    specialize (B2 ltac:(lra) ltac:(lra)). lra. }
  assert (Hn : (1 <= round_half_even (raw * pow10 3))%Z).
  { pose proof (round_half_even_lower (raw * pow10 3)) as Hlo.
    assert (H0 : 0 < inject_Z (round_half_even (raw * pow10 3))) by lra.
    change 0 with (inject_Z 0) in H0. rewrite <- Zlt_Qlt in H0. lia. }
  assert (Hs : 0 < round_dec 3 raw <= 1).
  { split; [| apply round_dec_unit, Hraw].
    unfold round_dec. apply Qlt_shift_div_l; [apply pow10_pos |].
    rewrite Qmult_0_l. change 0 with (inject_Z 0). rewrite <- Zlt_Qlt. lia. }
  assert (Es : stockout_risk_score (max_lead_time rows) r
               = Fin (round_dec 3 raw)).
  { unfold stockout_risk_score. rewrite Er. reflexivity. }
  exists (round_dec 3 raw).
  destruct (risk_category (Fin (round_dec 3 raw))) as [label |] eqn:Ec.
  - exists label. simpl. rewrite Es. auto.
  - exfalso. apply (proj2 (proj2 (proj2 (risk_category_bins _)))) in Ec.
    lra.
Qed.

Lemma category_defined_for_comparable_lead_times_witness :
  exists s label,
    rr_score (risk_row_of (max_lead_time sample_risk_inputs) sample_slow)
    = Fin s /\
    0 < s <= 1 /\
    rr_category (risk_row_of (max_lead_time sample_risk_inputs) sample_slow)
    = Some label.
Proof.
  apply (category_defined_for_comparable_lead_times sample_risk_inputs
           (risk_row_of (max_lead_time sample_risk_inputs) sample_slow)).
  - repeat constructor; simpl; try lia; unfold Qle; simpl; lia.
  - simpl. right. left. reflexivity.
  - vm_compute. reflexivity.
Defined.

Lemma qmin_mono (a b u : Q) : a <= b -> qmin a u <= qmin b u.
Proof.
  intros H.
  destruct (qmin_spec a u) as [[Ha ->] | [Ha ->]];
    destruct (qmin_spec b u) as [[Hb ->] | [Hb ->]]; lra.
Qed.

Lemma days_of_stock_mono (r : risk_input) (a c1 c2 d1 d2 : Q) :
  avg_demand r = Fin a -> 0 <= a -> 0 <= c1 <= c2 ->
  days_of_stock (with_current_stock (Fin c1) r) = Fin d1 ->
  days_of_stock (with_current_stock (Fin c2) r) = Fin d2 ->
  d1 <= d2.
Proof.
  intros Ea Ha Hc.
  unfold days_of_stock, filled_stock, with_current_stock. simpl.
  rewrite Ea. simpl.
  destruct (Qcompare_spec a 0) as [E | E | E]; [| lra |].
  - destruct (Qcompare_spec c1 0) as [F1 | F1 | F1];
      destruct (Qcompare_spec c2 0) as [F2 | F2 | F2];
      simpl; intros E1 E2; try lra;
      injection E1 as <-; injection E2 as <-;
      try apply Qle_refl.
    destruct (qmin_spec 0 365) as [[_ ->] | [_ ->]]; lra.
  - simpl. intros E1 E2. injection E1 as <-. injection E2 as <-.
    apply qmin_mono. apply Qmult_le_compat_r; [lra |].
    apply Qlt_le_weak, Qinv_lt_0_compat, E.
Qed.

(** X14: with everything else equal, more stock never raises the
    stockout risk score of a row that respects the data model. *)
Theorem more_stock_never_raises_score
  (mx : Z) (r : risk_input) (c1 c2 : Q) :
  valid_risk_input r -> (lead_time_days r <= mx)%Z ->
  0 <= c1 <= c2 ->
  exists s1 s2,
    stockout_risk_score mx (with_current_stock (Fin c1) r) = Fin s1 /\
    stockout_risk_score mx (with_current_stock (Fin c2) r) = Fin s2 /\
    s2 <= s1.
Proof.
  intros Hv Hmx Hc.
  assert (Hv' : forall c, 0 <= c ->
            valid_risk_input (with_current_stock (Fin c) r)).
  { intros c Hc0. destruct Hv. constructor; simpl; trivial. }
  destruct (risk_terms mx _ (Hv' c1 ltac:(lra)) Hmx)
    as (h1 & v1 & d1 & Eh1 & Ev1 & Ed1 & Er1 & Hh1 & Hd1 & Ho1).
  destruct (risk_terms mx _ (Hv' c2 ltac:(lra)) Hmx)
    as (h2 & v2 & d2 & Eh2 & Ev2 & Ed2 & Er2 & Hh2 & Hd2 & Ho2).
  change (historical_stockout_rate (with_current_stock (Fin c2) r))
    with (historical_stockout_rate (with_current_stock (Fin c1) r)) in Eh2.
  change (demand_volatility (with_current_stock (Fin c2) r))
    with (demand_volatility (with_current_stock (Fin c1) r)) in Ev2.
  rewrite Eh1 in Eh2. injection Eh2 as <-.
  rewrite Ev1 in Ev2. injection Ev2 as <-.
  assert (Hd : d1 <= d2).
  { destruct Hv as [Havg _ _ _ _].
    destruct (avg_demand r) as [a | | |] eqn:Ea; simpl in Havg;
      try contradiction.
    apply (days_of_stock_mono r a c1 c2 d1 d2); trivial. }
  unfold stockout_risk_score. rewrite Er1, Er2. simpl.
  eexists. eexists. split; [reflexivity |]. split; [reflexivity |].
  apply round_dec_mono.
  assert (Hm : qmin (d1 / 30) 1 <= qmin (d2 / 30) 1).
  { apply qmin_mono. apply Qmult_le_compat_r; [exact Hd |].
    unfold Qle. simpl. lia. }
  lra.
Qed.

Lemma more_stock_never_raises_score_witness :
  exists s1 s2,
    stockout_risk_score 1000 (with_current_stock (Fin 50) sample_slow)
    = Fin s1 /\
    stockout_risk_score 1000 (with_current_stock (Fin 200) sample_slow)
    = Fin s2 /\
    s2 <= s1.
Proof.
  apply (more_stock_never_raises_score 1000 sample_slow 50 200).
  - repeat constructor; simpl; try lia; unfold Qle; simpl; lia.
  - simpl. lia.
  - split; unfold Qle; simpl; lia.
Defined.

(** ** Stage 4: costs *)

Lemma qmax_spec (a b : Q) :
  (a <= b /\ qmax a b = b) \/ (b < a /\ qmax a b = a).
Proof.
  unfold qmax. destruct (Qle_bool a b) eqn:E.
  - left. split; trivial. apply Qle_bool_iff, E.
  - right. split; trivial. apply Qle_bool_false, E.
Qed.

(** X15: the potential savings of a product with a non-negative unit
    cost are a number that is never negative, and they are 0 whenever
    the current stock does not exceed the average inventory level. *)
Theorem potential_savings_nonneg
  (r : reorder_input) (ail : Z) (c k : Q) :
  unit_cost r = Fin c -> filled_stock (ro_risk r) = Fin k -> 0 <= c ->
  exists v, potential_savings r ail = Fin v /\ 0 <= v /\
            (k <= inject_Z ail -> v == 0).
Proof.
  intros Ec Ek Hc.
  unfold potential_savings, current_carrying_cost, annual_carrying_cost.
  rewrite Ec, Ek. simpl.
  set (cur := round_dec 2 (k * c * holding_cost_rate)).
  set (ann := round_dec 2 (inject_Z ail * c * holding_cost_rate)).
  eexists. split; [reflexivity |]. split.
  - pose proof (round_dec_zero 2) as H0.
    assert (Hm : round_dec 2 0 <= round_dec 2 (qmax (cur + - ann) 0)).
    { apply round_dec_mono.
      destruct (qmax_spec (cur + - ann) 0) as [[_ ->] | [H ->]]; lra. }
    lra.
  - intros Hk.
    assert (Hle : cur <= ann).
    { apply round_dec_mono. unfold holding_cost_rate. nra. }
    destruct (qmax_spec (cur + - ann) 0) as [[_ ->] | [H _]]; [| lra].
    apply round_dec_zero.
Qed.

Lemma potential_savings_nonneg_witness :
  exists v, potential_savings sample_reorder 241 = Fin v /\ 0 <= v /\
            (50 <= inject_Z 241 -> v == 0).
Proof.
  apply (potential_savings_nonneg sample_reorder 241 20 50).
  - reflexivity.
  - reflexivity.
  - unfold Qle. simpl. lia.
Defined.

Lemma fround_not_finite (d : nat) (x : float64) :
  is_finite x = false -> is_finite (fround d x) = false.
Proof. destruct x; simpl; trivial. Qed.

(** X16: an order quantity of 0 is not guarded.  A product with zero
    average demand and a positive unit cost gets the order quantity 0,
    and for any row an order quantity of 0 makes orders_per_year, the
    annual ordering cost and the total annual cost infinite or NaN. *)
Theorem zero_order_quantity_costs (r : reorder_input) (a c : Q) :
  avg_demand (ro_risk r) = Fin a -> a == 0 ->
  unit_cost r = Fin c -> 0 < c ->
  optimal_order_quantity r = Some 0%Z /\
  orders_per_year r 0 = NaN /\
  forall (r' : reorder_input) (ail : Z),
    is_finite (orders_per_year r' 0) = false /\
    is_finite (annual_ordering_cost r' 0) = false /\
    is_finite (total_annual_cost r' ail 0) = false.
Proof.
  intros Ea Ha Ec Hc. split; [| split].
  - rewrite (optimal_order_quantity_fin r a c Ea Ec) by (trivial; lra).
    f_equal.
    assert (E : 2 * (a * 365) * ordering_cost / (c * holding_cost_rate)
                == 0).
    { rewrite Ha. unfold Qdiv. ring. }
    rewrite (round_sqrt_comp _ _ E). reflexivity.
  - unfold orders_per_year, annual_demand. rewrite Ea. simpl.
    assert (E : Qcompare (a * 365) 0 = Eq).
    { apply Qeq_alt. rewrite Ha. reflexivity. }
    rewrite E. reflexivity.
  - intros r' ail.
    assert (H1 : is_finite (fdiv (annual_demand r') (of_int 0)) = false).
    { unfold annual_demand.
      destruct (avg_demand (ro_risk r')) as [x | | |]; simpl; trivial.
      - destruct (Qcompare (x * 365) 0); reflexivity.
      }
    assert (H2 : is_finite (orders_per_year r' 0) = false)
      by (apply fround_not_finite, H1).
    assert (H3 : is_finite (annual_ordering_cost r' 0) = false).
    { unfold annual_ordering_cost. apply fround_not_finite.
      destruct (orders_per_year r' 0); try discriminate; reflexivity. }
    split; [exact H2 |]. split; [exact H3 |].
    unfold total_annual_cost. apply fround_not_finite.
    destruct (annual_ordering_cost r' 0); try discriminate;
      destruct (annual_carrying_cost ail r'); reflexivity.
Qed.

Lemma zero_order_quantity_costs_witness :
  optimal_order_quantity (with_avg_demand (Fin 0) sample_reorder)
  = Some 0%Z /\
  orders_per_year (with_avg_demand (Fin 0) sample_reorder) 0 = NaN /\
  forall (r' : reorder_input) (ail : Z),
    is_finite (orders_per_year r' 0) = false /\
    is_finite (annual_ordering_cost r' 0) = false /\
    is_finite (total_annual_cost r' ail 0) = false.
Proof.
  apply (zero_order_quantity_costs
           (with_avg_demand (Fin 0) sample_reorder) 0 20).
  - reflexivity.
  - reflexivity.
  - reflexivity.
  - unfold Qlt. simpl. lia.
Defined.

(** ** Stage 4: tiers *)

Lemma count_ranks_between (a b n : nat) :
  List.length
    (filter (fun k => (a <? k)%nat && (k <=? b)%nat) (seq 1 n))
  = (Nat.min n b - Nat.min n a)%nat.
Proof.
  induction n as [| n IH]; [reflexivity |].
  rewrite seq_S, filter_app, length_app, IH. cbn [filter Nat.add].
  destruct (Nat.ltb_spec a (S n)); destruct (Nat.leb_spec (S n) b);
    cbn [andb List.length]; lia.
Qed.

Lemma rank_from_recommendations (mx : float64) (l : list supplier_metric)
      (k : nat) :
  map rk_recommendation (rank_from mx k l)
  = map recommendation (seq k (List.length l)).
Proof.
  revert k. induction l as [| m t IH]; intros k; simpl; trivial.
  rewrite IH. reflexivity.
Qed.

Lemma count_tier_ranks (t : tier) (mx : float64) (l : list supplier_metric) :
  count_tier t (rank_rows mx l)
  = List.length
      (filter (fun k => tier_eqb (recommendation k) t)
              (seq 1 (List.length l))).
Proof.
  unfold count_tier, rank_rows.
  rewrite <- (length_map rk_recommendation).
  rewrite <- (filter_map_swap rk_recommendation (fun x => tier_eqb x t)).
  rewrite rank_from_recommendations, filter_map_swap, length_map.
  reflexivity.
Qed.

(** X17: whatever the scores, a ranking of n suppliers has min(n, 5)
    Preferred suppliers, the next up to ten Approved, and the remaining
    n - 15 (none when n <= 15) under Review Required. *)
Theorem tier_counts
  (metrics : list supplier_metric) (table : list ranked_supplier) :
  supplier_ranking_of metrics table ->
  count_tier Preferred table = Nat.min (List.length metrics) 5 /\
  count_tier Approved table
  = (Nat.min (List.length metrics) 15 - Nat.min (List.length metrics) 5)%nat
  /\
  count_tier ReviewRequired table = (List.length metrics - 15)%nat.
Proof.
  intros (sorted & [Hperm _] & ->).
  rewrite !count_tier_ranks, <- (Permutation_length Hperm).
  set (n := List.length metrics).
  split; [| split].
  - rewrite filter_ext_in
      with (g := fun k => (0 <? k)%nat && (k <=? 5)%nat).
    + rewrite count_ranks_between. lia.
    + intros k Hk. apply in_seq in Hk. unfold recommendation.
      destruct (Nat.leb_spec k 5); destruct (Nat.ltb_spec 0 k);
        destruct (Nat.leb_spec k 15); simpl; trivial; lia.
  - rewrite filter_ext_in
      with (g := fun k => (5 <? k)%nat && (k <=? 15)%nat).
    + rewrite count_ranks_between. reflexivity.
    + intros k _. unfold recommendation.
      destruct (Nat.leb_spec k 5); destruct (Nat.ltb_spec 5 k);
        destruct (Nat.leb_spec k 15); simpl; trivial; lia.
  - rewrite filter_ext_in
      with (g := fun k => (15 <? k)%nat && (k <=? n)%nat).
    + rewrite count_ranks_between. lia.
    + intros k Hk. apply in_seq in Hk. unfold recommendation.
      destruct (Nat.leb_spec k 5); destruct (Nat.ltb_spec 15 k);
        destruct (Nat.leb_spec k 15); destruct (Nat.leb_spec k n);
        simpl; trivial; lia.
Qed.

Lemma tier_counts_witness :
  count_tier Preferred (supplier_ranking_stable sample_metrics)
  = Nat.min (List.length sample_metrics) 5 /\
  count_tier Approved (supplier_ranking_stable sample_metrics)
  = (Nat.min (List.length sample_metrics) 15
     - Nat.min (List.length sample_metrics) 5)%nat /\
  count_tier ReviewRequired (supplier_ranking_stable sample_metrics)
  = (List.length sample_metrics - 15)%nat.
Proof.
  apply (tier_counts sample_metrics (supplier_ranking_stable sample_metrics)).
  apply supplier_ranking_stable_is_ranking.
Defined.

(** ** Stage 4: the performance score *)

Lemma fold_fmax2_pos (l : list float64) (m0 : Q) :
  Forall pos_fin l -> 0 < m0 ->
  exists m, fold_left fmax2 l (Fin m0) = Fin m /\ m0 <= m /\
            (In (Fin m) (Fin m0 :: l)) /\
            forall t, In (Fin t) l -> t <= m.
Proof.
  intros H. revert m0. induction H as [| x l Hx _ IH]; intros m0 H0.
  - exists m0. simpl. split; trivial. split; [lra |].
    split; [left; reflexivity | intros t []].
  - destruct x as [t | | |]; simpl in Hx; try contradiction.
    simpl. destruct (Qle_bool m0 t) eqn:E.
    + apply Qle_bool_iff in E.
      destruct (IH t Hx) as (m & Em & Hm & Hin & Hall).
      exists m. split; trivial. split; [lra |]. split.
      * right. exact Hin.
      * intros u [Eu | Hu]; [injection Eu as <-; exact Hm | auto].
    + apply Qle_bool_false in E.
      destruct (IH m0 H0) as (m & Em & Hm & Hin & Hall).
      exists m. split; trivial. split; trivial. split.
      * destruct Hin as [Ei | Hi]; [left; exact Ei | right; right; exact Hi].
      * intros u [Eu | Hu]; [injection Eu as <-; lra | auto].
Qed.

Lemma fseries_max_pos (l : list float64) :
  l <> [] -> Forall pos_fin l ->
  exists m, fseries_max l = Fin m /\ 0 < m /\ In (Fin m) l /\
            forall t, In (Fin t) l -> t <= m.
Proof.
  intros Hne H. destruct H as [| x l Hx Hl]; [congruence |].
  destruct x as [t | | |]; simpl in Hx; try contradiction.
  unfold fseries_max. simpl.
  destruct (fold_fmax2_pos l t Hl Hx) as (m & Em & Hm & Hin & Hall).
  exists m. split; trivial. split; [lra |]. split; trivial.
  intros u [Eu | Hu]; [injection Eu as <-; exact Hm | auto].
Qed.

Lemma rank_from_In (mx : float64) (l : list supplier_metric) (k : nat)
      (a : ranked_supplier) :
  In a (rank_from mx k l) ->
  In (rk_metric a) l /\
  rk_cost_efficiency a = cost_efficiency mx (rk_metric a) /\
  rk_performance_score a = performance_score mx (rk_metric a).
Proof.
  revert k. induction l as [| m t IH]; intros k; simpl; [tauto |].
  intros [<- | H].
  - simpl. auto.
  - destruct (IH _ H) as (H1 & H2 & H3). auto.
Qed.

(** X18: when every supplier has a positive average delivery time and
    an on-time rate and reliability between 0 and 1, every row of a
    ranking table has a cost efficiency in [0, 1) and a performance
    score in [0, 1], and the supplier with the longest average delivery
    time has cost efficiency 0. *)
Theorem performance_score_unit
  (metrics : list supplier_metric) (table : list ranked_supplier) :
  Forall valid_supplier_metric metrics ->
  supplier_ranking_of metrics table ->
  (forall a, In a table ->
     exists ce s,
       rk_cost_efficiency a = Fin ce /\ 0 <= ce < 1 /\
       rk_performance_score a = Fin s /\ 0 <= s <= 1) /\
  (metrics <> [] ->
   exists a ce, In a table /\ rk_cost_efficiency a = Fin ce /\ ce == 0).
Proof.
  intros Hall (sorted & [Hperm _] & ->).
  set (mx := max_delivery_time metrics).
  assert (Hpos : Forall pos_fin (map avg_delivery_time metrics)).
  { rewrite Forall_map. eapply Forall_impl; [| exact Hall].
    intros m [H _ _]. exact H. }
  assert (Hce : forall d m, mx = Fin d -> 0 < d -> In m metrics ->
            (forall t, avg_delivery_time m = Fin t -> t <= d) ->
            exists ce s,
              cost_efficiency mx m = Fin ce /\ 0 <= ce < 1 /\
              performance_score mx m = Fin s /\ 0 <= s <= 1).
  { intros d m Ed Hd Hm Hle.
    rewrite Forall_forall in Hall. destruct (Hall m Hm) as [Ht Ho Hr].
    destruct (avg_delivery_time m) as [t | | |] eqn:Et; simpl in Ht;
      try contradiction.
    destruct (on_time_rate m) as [o | | |] eqn:Eo; simpl in Ho;
      try contradiction.
    destruct (reliability_score m) as [r | | |] eqn:Er; simpl in Hr;
      try contradiction.
    specialize (Hle t eq_refl).
    assert (Hq : 0 < t / d <= 1).
    { split; [apply Qlt_shift_div_l; lra | apply Qdiv_le_1; lra]. }
    unfold performance_score, cost_efficiency.
    rewrite Ed, Et, Eo, Er, fdiv_fin_pos by exact Hd. simpl.
    eexists. eexists. split; [reflexivity |]. split; [lra |].
    split; [reflexivity |]. apply round_dec_unit. lra. }
  split.
  - intros a Ha. apply rank_from_In in Ha. destruct Ha as (Hm & E1 & E2).
    apply (Permutation_in _ (Permutation_sym Hperm)) in Hm.
    assert (Hne : map avg_delivery_time metrics <> []).
    { destruct metrics; [destruct Hm | discriminate]. }
    destruct (fseries_max_pos _ Hne Hpos) as (d & Ed & Hd & _ & Hmax).
    rewrite E1, E2. apply (Hce d); trivial.
    intros t Et. apply Hmax. rewrite <- Et. apply in_map, Hm.
  - intros Hne0.
    assert (Hne : map avg_delivery_time metrics <> []).
    { destruct metrics; [congruence | discriminate]. }
    destruct (fseries_max_pos _ Hne Hpos) as (d & Ed & Hd & Hin & Hmax).
    apply in_map_iff in Hin. destruct Hin as (m & Et & Hm).
    apply (Permutation_in _ Hperm) in Hm.
    apply In_nth_error in Hm. destruct Hm as (i & Hi).
    pose proof (rank_from_nth mx sorted 1 i) as Hn. rewrite Hi in Hn.
    simpl in Hn. eexists. eexists. split.
    + eapply nth_error_In, Hn.
    + simpl. unfold cost_efficiency.
      assert (Ed' : mx = Fin d) by exact Ed.
      rewrite Et, Ed', fdiv_fin_pos by exact Hd. simpl.
      split; [reflexivity |]. field. lra.
Qed.

Lemma performance_score_unit_witness :
  (forall a, In a (supplier_ranking_stable sample_metrics) ->
     exists ce s,
       rk_cost_efficiency a = Fin ce /\ 0 <= ce < 1 /\
       rk_performance_score a = Fin s /\ 0 <= s <= 1) /\
  (sample_metrics <> [] ->
   exists a ce, In a (supplier_ranking_stable sample_metrics) /\
                rk_cost_efficiency a = Fin ce /\ ce == 0).
Proof.
  apply (performance_score_unit sample_metrics
           (supplier_ranking_stable sample_metrics)).
  - repeat constructor; simpl; unfold Qle, Qlt; simpl; lia.
  - apply supplier_ranking_stable_is_ranking.
Defined.

(** ** Stage 4: what-if scenarios *)

Lemma astype_int_floor (q : Q) :
  0 <= q -> astype_int (Fin q) = Some (Qfloor q).
Proof.
  intros H. unfold astype_int. f_equal. destruct q as [n d].
  unfold Qle in H. simpl in *. apply Z.quot_div_nonneg; lia.
Qed.

Lemma inventory_rounding_gap (ss q : Z) :
  (0 <= ss)%Z -> (0 <= q)%Z ->
  exists a b,
    avg_inventory_level ss q = Some a /\
    scenario_avg_inventory ss q = Some b /\
    (0 <= a - b <= 1)%Z.
Proof.
  intros Hs Hq.
  assert (E : fadd (of_int ss) (fdiv (of_int q) (Fin 2))
              = Fin (inject_Z ss + inject_Z q / 2)).
  { unfold of_int. rewrite fdiv_fin_pos by reflexivity. reflexivity. }
  assert (H0 : 0 <= inject_Z ss + inject_Z q / 2).
  { assert (0 <= inject_Z ss)
      by (change 0 with (inject_Z 0); rewrite <- Zle_Qle; exact Hs).
    assert (0 <= inject_Z q)
      by (change 0 with (inject_Z 0); rewrite <- Zle_Qle; exact Hq).
    assert (0 <= inject_Z q / 2) by (apply Qdiv_nonneg; [trivial | reflexivity]).
    lra. }
  unfold avg_inventory_level, scenario_avg_inventory. rewrite E.
  rewrite astype_round0, (astype_int_floor _ H0).
  eexists. eexists. split; [reflexivity |]. split; [reflexivity |].
  destruct (round_half_even_cases (inject_Z ss + inject_Z q / 2))
    as [[-> _] | [-> _]]; lia.
Qed.

Lemma sum_columns_gap (rows : list (Z * Z)) :
  Forall (fun r => (0 <= fst r)%Z /\ (0 <= snd r)%Z) rows ->
  exists a b,
    sum_column (fun r => avg_inventory_level (fst r) (snd r)) rows = Some a /\
    sum_column (fun r => scenario_avg_inventory (fst r) (snd r)) rows
    = Some b /\
    (0 <= a - b <= Z.of_nat (List.length rows))%Z.
Proof.
  induction 1 as [| r rows [Hs Hq] _ IH].
  - exists 0%Z, 0%Z. simpl. repeat split; lia.
  - destruct IH as (a & b & Ea & Eb & Hab).
    destruct (inventory_rounding_gap _ _ Hs Hq) as (x & y & Ex & Ey & Hxy).
    exists (x + a)%Z, (y + b)%Z.
    cbn [sum_column]. rewrite Ex, Ey, Ea, Eb.
    split; [reflexivity |]. split; [reflexivity |].
    change (List.length (r :: rows)) with (S (List.length rows)). lia.
Qed.

(** X19: the inventory impact of the supplier scenario does not come
    from the shortened lead time: it is the difference between rounding
    and truncating safety_stock + order_quantity / 2, so with
    non-negative columns it lies between 0 and the number of products,
    and the estimated annual impact is at most 25 per product. *)
Theorem stock_reduction_is_rounding (rows : list (Z * Z)) :
  Forall (fun r => (0 <= fst r)%Z /\ (0 <= snd r)%Z) rows ->
  exists d v,
    stock_reduction rows = Some d /\
    (0 <= d <= Z.of_nat (List.length rows))%Z /\
    cost_savings_scenario_2 rows = Some v /\
    0 <= v <= 25 * inject_Z (Z.of_nat (List.length rows)).
Proof.
  intros H. destruct (sum_columns_gap rows H) as (a & b & Ea & Eb & Hab).
  exists (a - b)%Z. eexists.
  unfold cost_savings_scenario_2, stock_reduction. rewrite Ea, Eb.
  split; [reflexivity |]. split; [exact Hab |].
  split; [reflexivity |].
  assert (H0 : 0 <= inject_Z (a - b)).
  { change 0 with (inject_Z 0). rewrite <- Zle_Qle. lia. }
  assert (H1 : inject_Z (a - b) <= inject_Z (Z.of_nat (List.length rows))).
  { rewrite <- Zle_Qle. lia. }
  unfold qabs, holding_cost_rate.
  assert (Hp : Qle_bool 0 (inject_Z (a - b) * 100 * 0.25) = true).
  { apply Qle_bool_iff. nra. }
  rewrite Hp. split; nra.
Qed.

Lemma stock_reduction_is_rounding_witness :
  exists d v,
    stock_reduction [(50, 382); (7, 11); (8, 11)]%Z = Some d /\
    (0 <= d <= Z.of_nat (List.length [(50, 382); (7, 11); (8, 11)]%Z))%Z /\
    cost_savings_scenario_2 [(50, 382); (7, 11); (8, 11)]%Z = Some v /\
    0 <= v
    <= 25 * inject_Z (Z.of_nat (List.length [(50, 382); (7, 11); (8, 11)]%Z)).
Proof.
  apply (stock_reduction_is_rounding [(50, 382); (7, 11); (8, 11)]%Z).
  repeat constructor; simpl; lia.
Defined.

Example sample_stock_reduction :
  stock_reduction [(50, 382); (7, 11); (8, 11)]%Z = Some 1%Z.
Proof. reflexivity. Qed.

(** X20: the scenario safety stock is the safety stock times 1.2 cut to
    an integer: for a non-negative safety stock it is at least the
    safety stock and at most 1.2 times it, and a safety stock below 5
    units is left unchanged. *)
Theorem scenario_safety_stock_bounds (ss : Z) :
  (0 <= ss)%Z ->
  exists t,
    scenario_safety_stock ss = Some t /\
    (ss <= t)%Z /\ (5 * t <= 6 * ss)%Z /\
    ((ss < 5)%Z -> t = ss).
Proof.
  intros Hs. unfold scenario_safety_stock, of_int. simpl fmul.
  assert (H0 : 0 <= inject_Z ss).
  { change 0 with (inject_Z 0). rewrite <- Zle_Qle. exact Hs. }
  rewrite astype_int_floor by nra.
  exists (Qfloor (inject_Z ss * 1.20)). split; [reflexivity |].
  destruct (floor_bounds (inject_Z ss * 1.20)) as [Hlo Hhi].
  set (t := Qfloor (inject_Z ss * 1.20)) in *.
  assert (H1 : (ss <= t)%Z).
  { apply Z.lt_succ_r. unfold Z.succ. rewrite Zlt_Qlt, inject_Z_plus.
    change (inject_Z 1) with 1. nra. }
  assert (H2 : (5 * t <= 6 * ss)%Z).
  { rewrite Zle_Qle, !inject_Z_mult.
    change (inject_Z 5) with 5. change (inject_Z 6) with 6. lra. }
  repeat split; trivial. intros H5. lia.
Qed.

Lemma scenario_safety_stock_bounds_witness :
  exists t,
    scenario_safety_stock 50 = Some t /\
    (50 <= t)%Z /\ (5 * t <= 6 * 50)%Z /\
    ((50 < 5)%Z -> t = 50%Z).
Proof.
  apply (scenario_safety_stock_bounds 50). lia.
Defined.

(** X21: the scenario lead time is 0.85 times the lead time rounded to
    the nearest integer: it is never longer than the lead time, it is
    positive whenever the lead time is, and lead times of up to 3 days
    are not shortened at all. *)
Theorem scenario_lead_time_bounds (lead : Z) :
  (0 <= lead)%Z ->
  exists t,
    scenario_lead_time lead = Some t /\
    (0 <= t <= lead)%Z /\
    ((0 < lead)%Z -> (0 < t)%Z) /\
    ((lead <= 3)%Z -> t = lead).
Proof.
  intros Hl. unfold scenario_lead_time, of_int. simpl fmul.
  rewrite astype_round0.
  set (x := inject_Z lead * (1 - avg_lead_time_reduction)).
  exists (round_half_even x). split; [reflexivity |].
  pose proof (round_half_even_lower x) as Hlo.
  pose proof (round_half_even_upper x) as Hhi.
  assert (Ex : x == inject_Z lead * (17 # 20)).
  { unfold x, avg_lead_time_reduction. ring. }
  assert (H0 : 0 <= inject_Z lead).
  { change 0 with (inject_Z 0). rewrite <- Zle_Qle. exact Hl. }
  set (t := round_half_even x) in *.
  assert (Hle : (t <= lead)%Z).
  { apply Z.lt_succ_r. unfold Z.succ. rewrite Zlt_Qlt, inject_Z_plus.
    change (inject_Z 1) with 1. lra. }
  assert (Hge : (0 <= t)%Z).
  { assert (H : (-1 < t)%Z).
    { rewrite Zlt_Qlt. change (inject_Z (-1)) with (-1 # 1). lra. }
    lia. }
  split; [lia |]. split.
  - intros Hp.
    assert (H1 : 1 <= inject_Z lead).
    { change 1 with (inject_Z 1). rewrite <- Zle_Qle. lia. }
    rewrite Zlt_Qlt. change (inject_Z 0) with 0. lra.
  - intros H3.
    assert (H3' : inject_Z lead <= 3).
    { change 3 with (inject_Z 3). rewrite <- Zle_Qle. exact H3. }
    assert (H : (lead - 1 < t)%Z).
    { rewrite Zlt_Qlt. unfold Z.sub. rewrite inject_Z_plus, inject_Z_opp.
      change (inject_Z 1) with 1. lra. }
    lia.
Qed.

Lemma scenario_lead_time_bounds_witness :
  exists t,
    scenario_lead_time 3 = Some t /\
    (0 <= t <= 3)%Z /\
    ((0 < 3)%Z -> (0 < t)%Z) /\
    ((3 <= 3)%Z -> t = 3%Z).
Proof.
  apply (scenario_lead_time_bounds 3). lia.
Defined.

(** X22: the automation benefit is never below 2000, so the payback
    period is always defined; with no high-risk product the count falls
    back to at most ten medium-risk products, and the advice is
    'Evaluate further' exactly when one or two products are counted. *)
Theorem scenario_3_outcome (high medium : nat) :
  (2000 <= scenario_3_automation_benefit
             (risk_products_count high medium))%Z /\
  ((0 < high)%nat -> risk_products_count high medium = high) /\
  (high = 0%nat -> risk_products_count high medium = Nat.min medium 10) /\
  (scenario_3_recommendation
     (scenario_3_automation_benefit (risk_products_count high medium))
   = EvaluateFurther <->
   risk_products_count high medium = 1%nat \/
   risk_products_count high medium = 2%nat).
Proof.
  set (c := risk_products_count high medium).
  assert (Hb : (2000 <= scenario_3_automation_benefit c)%Z).
  { unfold scenario_3_automation_benefit.
    destruct (Nat.ltb_spec 0 c); lia. }
  split; [exact Hb |]. split; [| split].
  - unfold c, risk_products_count. intros H.
    destruct (Nat.ltb_spec 0 high); [reflexivity | lia].
  - unfold c, risk_products_count. intros ->. reflexivity.
  - unfold scenario_3_recommendation, scenario_3_automation_benefit.
    destruct (Nat.ltb_spec 0 c) as [Hc | Hc].
    + destruct (Z.ltb_spec 5000 (Z.of_nat c * 2000)); split; intros G;
        try discriminate; try reflexivity; lia.
    + destruct (Z.ltb_spec 5000 10000); [| lia].
      split; intros G; [discriminate | lia].
Qed.

(** ** Stage 5: stock status *)

Lemma flt_bool_fin (x y : Q) : flt_bool (Fin x) (Fin y) = true <-> x < y.
Proof.
  unfold flt_bool. simpl. rewrite andb_true_iff, negb_true_iff.
  rewrite Qle_bool_iff, Qle_bool_false. split; [tauto | intros H; split; lra].
Qed.

Lemma flt_bool_fin_false (x y : Q) :
  flt_bool (Fin x) (Fin y) = false <-> y <= x.
Proof.
  destruct (flt_bool (Fin x) (Fin y)) eqn:E.
  - apply flt_bool_fin in E. split; [discriminate | lra].
  - split; trivial. intros _. apply Qnot_lt_le. intros H.
    apply flt_bool_fin in H. congruence.
Qed.

Lemma status_fin (d : Q) :
  (status (Fin d) = Critical <-> d < 7) /\
  (status (Fin d) = Normal <-> 14 <= d).
Proof.
  unfold status.
  destruct (Qlt_le_dec d 7) as [L7 | G7].
  - rewrite (proj2 (flt_bool_fin d 7) L7).
    split; split; intros H; try reflexivity; try discriminate; lra.
  - rewrite (proj2 (flt_bool_fin_false d 7) G7).
    destruct (Qlt_le_dec d 14) as [L14 | G14].
    + rewrite (proj2 (flt_bool_fin d 14) L14).
      split; split; intros H; try discriminate; lra.
    + rewrite (proj2 (flt_bool_fin_false d 14) G14).
      split; split; intros H; try reflexivity; try discriminate; lra.
Qed.

(** X23: for a product with a positive average demand the dashboard
    status is Critical exactly when the current stock covers fewer than
    7 days of average demand and Normal exactly when it covers at least
    14; a product without stock (0 or no snapshot) is Critical whatever
    its demand. *)
Theorem status_by_days_of_cover (r : risk_input) (a c : Q) :
  avg_demand r = Fin a -> 0 < a ->
  current_stock r = Fin c ->
  (status (days_of_stock r) = Critical <-> c < 7 * a) /\
  (status (days_of_stock r) = Normal <-> 14 * a <= c) /\
  (forall r', nonneg_fin (avg_demand r') ->
     feq (filled_stock r') (Fin 0) ->
     status (days_of_stock r') = Critical).
Proof.
  intros Ea Ha Ec.
  assert (Ed : days_of_stock r = Fin (qmin (c / a) 365)).
  { unfold days_of_stock, filled_stock. rewrite Ea, Ec. cbn [fillna].
    rewrite fdiv_fin_pos by exact Ha. reflexivity. }
  rewrite Ed. destruct (status_fin (qmin (c / a) 365)) as [Hc Hn].
  assert (H7 : c / a < 7 <-> c < 7 * a).
  { assert (E : c == (c / a) * a) by (field; lra).
    split; intros H.
    - nra.
    - apply Qlt_shift_div_r; trivial. }
  assert (H14 : 14 <= c / a <-> 14 * a <= c).
  { split; intros H.
    - assert (E : c == (c / a) * a) by (field; lra). nra.
    - apply Qle_shift_div_l; trivial. }
  split; [| split].
  - rewrite Hc, <- H7.
    destruct (qmin_spec (c / a) 365) as [[L ->] | [L ->]]; split; lra.
  - rewrite Hn, <- H14.
    destruct (qmin_spec (c / a) 365) as [[L ->] | [L ->]]; split; lra.
  - intros r' Havg Hz. unfold days_of_stock.
    destruct (filled_stock r') as [k | | |]; simpl in Hz; try contradiction.
    destruct (avg_demand r') as [b | | |]; simpl in Havg; try contradiction.
    simpl. destruct (Qcompare_spec b 0) as [E | E | E]; [| lra |].
    + assert (Ek : Qcompare k 0 = Eq) by (apply Qeq_alt, Hz).
      rewrite Ek. simpl. apply (proj1 (status_fin _)).
      destruct (qmin_spec 0 365) as [[L ->] | [L ->]]; lra.
    + simpl. apply (proj1 (status_fin _)).
      assert (Eq0 : k / b == 0) by (rewrite Hz; unfold Qdiv; ring).
      destruct (qmin_spec (k / b) 365) as [[_ ->] | [L _]]; lra.
Qed.

Lemma status_by_days_of_cover_witness :
  (status (days_of_stock sample_slow) = Critical <-> 50 < 7 * 10) /\
  (status (days_of_stock sample_slow) = Normal <-> 14 * 10 <= 50) /\
  (forall r', nonneg_fin (avg_demand r') ->
     feq (filled_stock r') (Fin 0) ->
     status (days_of_stock r') = Critical).
Proof.
  apply (status_by_days_of_cover sample_slow 10 50).
  - reflexivity.
  - unfold Qlt. simpl. lia.
  - reflexivity.
Defined.
